(** * Gemini3 particle toy: shape generators, gesture signal, particle frame,
      audio mapping and the remote shape service

    A shallow embedding of the TypeScript sources
      - [src/types.ts]
      - [src/utils/geometry.ts]
      - [src/components/HandController.tsx] (the hand tracking component)
      - [src/components/ParticleScene.tsx]
      - [src/components/AudioController.tsx]
      - [src/services/geminiService.ts] (three revisions of the file)

    Numbers.  A JavaScript [number] is read as a real number ([R]): every
    arithmetic operation is the exact one and no value is NaN or infinite.
    [Math.random()] is a draw from a source of numbers in [[0,1)], threaded
    through the code as explicit state. *)

From Stdlib Require Import Reals Lra Lia ZArith Arith Bool String List.
Import ListNotations.
Open Scope R_scope.

(* ================================================================== *)
(** ** JavaScript primitives used by the sources *)
(* ================================================================== *)

Module Js.

(** The source of [Math.random()]: the n-th draw is [draws n]; [cursor] is
    the number of draws already consumed. *)
Record RandomSource : Type := mkRandomSource
  { draws : nat -> R;
    cursor : nat }.

(** Every draw of [Math.random()] lies in [[0,1)]. *)
Definition unit_draws (s : RandomSource) : Prop :=
  forall n : nat, 0 <= draws s n < 1.

(** Code that calls [Math.random()]: a state transformer over the source. *)
Definition Rand (A : Type) : Type := RandomSource -> A * RandomSource.

Definition ret {A : Type} (a : A) : Rand A := fun s => (a, s).

Definition bind {A B : Type} (m : Rand A) (k : A -> Rand B) : Rand B :=
  fun s => let (a, s') := m s in k a s'.

Definition Math_random : Rand R :=
  fun s => (draws s (cursor s), mkRandomSource (draws s) (S (cursor s))).

(** [for (let i = 0; i < count; i++) { ...; points.push(p) }] where the pushed
    element does not depend on [i]. *)
Fixpoint for_push {A : Type} (n : nat) (body : Rand A) (points : list A)
  : Rand (list A) :=
  match n with
  | O => ret points
  | S n' => bind body (fun p => for_push n' body (points ++ [p]))
  end.

(** Number of iterations of [for (let i = 0; i < count; i++)] for an integer
    [count]: none when [count <= 0]. *)
Definition iterations (count : Z) : nat := Z.to_nat count.

(** [Math.floor], as an integer. *)
Definition Math_floor (r : R) : Z := Int_part r.

(** [Math.max] and [Math.min] of two numbers. *)
Definition Math_max (a b : R) : R := Rmax a b.
Definition Math_min (a b : R) : R := Rmin a b.

(** [Math.pow(b, e)] where its value is a real number: an integer exponent
    is repeated multiplication (or division), a positive base is
    [exp (e * ln b)], and [0 ** e] is [0] for [e > 0].  Where JavaScript
    gives NaN or Infinity (negative base with a fractional exponent, zero
    base with a negative exponent) the value here is not meaningful. *)
Definition Math_pow (b e : R) : R :=
  if Req_dec_T e (IZR (Int_part e)) then powerRZ b (Int_part e)
  else if Rlt_dec 0 b then Rpower b e
  else 0.

(** The comparison [a > b] of two numbers, as a boolean. *)
Definition gt (a b : R) : bool := if Rgt_dec a b then true else false.

(** What a [throw] carries. *)
Inductive Thrown : Type :=
| Error (message : string)             (* [new Error(message)] *)
| TypeError                            (* a property read on [undefined] or [null] *)
| ReferenceError                       (* a name that is not defined *)
| SyntaxError                          (* [JSON.parse] of a text that is not JSON *)
| OtherError (name message : string).  (* an error object of a collaborator *)

(** Code that returns a value or throws. *)
Inductive Result (A : Type) : Type :=
| Ok (a : A)
| Throw (e : Thrown).
Arguments Ok {A} a.
Arguments Throw {A} e.

(** Typed-array style access to a list of numbers: a read, and a write that
    leaves the array alone when the index is out of range. *)
Definition typed_get (l : list R) (i : nat) : R := nth i l 0.

Fixpoint typed_set (l : list R) (i : nat) (v : R) : list R :=
  match l, i with
  | [], _ => []
  | _ :: l', O => v :: l'
  | a :: l', S i' => a :: typed_set l' i' v
  end.

(** Sources with a constant draw, used as concrete inputs. *)
Definition half_draws : RandomSource := mkRandomSource (fun _ => 0.5) 0.
Definition high_draws : RandomSource := mkRandomSource (fun _ => 0.9) 0.

End Js.

Notation "x <- c1 ;; c2" := (Js.bind c1 (fun x => c2))
  (at level 61, c1 at next level, right associativity).

(* ================================================================== *)
(** ** src/types.ts *)
(* ================================================================== *)

Module types.

Record Point3D : Type := mkPoint3D
  { x : R;
    y : R;
    z : R }.

Record HandData : Type := mkHandData
  { isOpen : bool;
    openness : R;
    detected : bool }.

End types.

(* ================================================================== *)
(** ** src/utils/geometry.ts *)
(* ================================================================== *)

Module geometry.
Import Js types.

(** Body of the loop of [generateSphere] (lines 6-13). *)
Definition sphere_point : Rand Point3D :=
  u1 <- Math_random ;;
  let theta := u1 * 2 * PI in
  u2 <- Math_random ;;
  let phi := acos (2 * u2 - 1) in
  let r := 1.2 in
  ret {| x := r * sin phi * cos theta;
         y := r * sin phi * sin theta;
         z := r * cos phi |}.

Definition generateSphere (count : Z) : Rand (list Point3D) :=
  for_push (iterations count) sphere_point [].

(** Body of the loop of [generateCube] (lines 21-34): the three coordinates
    are drawn first, then one of them is overwritten. *)
Definition cube_point : Rand Point3D :=
  u1 <- Math_random ;;
  let axis := Math_floor (u1 * 3) in
  u2 <- Math_random ;;
  let sign := if Rlt_dec u2 0.5 then -1 else 1 in
  u3 <- Math_random ;;
  u4 <- Math_random ;;
  u5 <- Math_random ;;
  let p := {| x := (u3 * 2 - 1) * 1.2;
              y := (u4 * 2 - 1) * 1.2;
              z := (u5 * 2 - 1) * 1.2 |} in
  ret (if (axis =? 0)%Z then {| x := sign * 1.2; y := y p; z := z p |}
       else if (axis =? 1)%Z then {| x := x p; y := sign * 1.2; z := z p |}
       else {| x := x p; y := y p; z := sign * 1.2 |}).

Definition generateCube (count : Z) : Rand (list Point3D) :=
  for_push (iterations count) cube_point [].

(** [h] of line 43 from its draw, and the normalized height of line 52. *)
Definition bottle_h (u : R) : R := u * 3 - 1.0.
Definition bottle_y (h : R) : R := (h + 1) / 2.5.

(** The radius profile of [generateBottle] (lines 46-70), keyed to the
    normalized height [y].  The initial [r = 0.5] of line 46 is overwritten
    in every branch.  Only the base branch draws a random number. *)
Definition bottleRadius (y : R) : Rand R :=
  if Rlt_dec y 0.05 then
    u <- Math_random ;; ret (sqrt u * 0.8)
  else if Rlt_dec y 0.6 then
    ret 0.8
  else if Rlt_dec y 0.7 then
    let t := (y - 0.6) / 0.1 in
    ret (0.8 * (1 - t) + 0.3 * t)
  else if Rlt_dec y 0.95 then
    ret 0.3
  else
    ret 0.35.

(** Body of the loop of [generateBottle] (lines 43-76). *)
Definition bottle_point : Rand Point3D :=
  u1 <- Math_random ;;
  let h := bottle_h u1 in
  u2 <- Math_random ;;
  let theta := u2 * 2 * PI in
  let y := bottle_y h in
  r <- bottleRadius y ;;
  ret (mkPoint3D (r * cos theta) (y * 3.5 - 1.5) (r * sin theta)).

Definition generateBottle (count : Z) : Rand (list Point3D) :=
  for_push (iterations count) bottle_point [].

(** Euclidean distance of a point from the origin. *)
Definition norm (p : Point3D) : R :=
  sqrt (x p * x p + y p * y p + z p * z p).

(** The radius the profile gives at height [y], as a function of [y] for a
    fixed random source. *)
Definition radiusAt (s : RandomSource) (y : R) : R := fst (bottleRadius y s).

(** What a point made by the loop body of generateBottle looks like: a
    height [yn] in [[0, 1.2)], an angle in [[0, 2 PI)], the radius of the
    profile at [yn] (for some source of draws in [[0,1)]). *)
Definition bottle_point_spec (p : Point3D) : Prop :=
  exists (yn theta : R) (s' : RandomSource),
    0 <= yn < 1.2 /\ 0 <= theta < 2 * PI /\ unit_draws s' /\
    p = mkPoint3D (radiusAt s' yn * cos theta)
                  (3.5 * yn - 1.5)
                  (radiusAt s' yn * sin theta).

End geometry.

(* ================================================================== *)
(** ** src/components/HandController.tsx: the gesture signal *)
(* ================================================================== *)

Module HandController.
Import Js types.

(** A landmark of the hand tracker is an object with [x], [y] and [z]. *)
Definition Landmark : Type := Point3D.

(** [result.landmarks]: one array of landmarks per detected hand, or
    [undefined] ([None]). *)
Record HandLandmarkerResult : Type := mkHandLandmarkerResult
  { landmarks : option (list (list Landmark)) }.

Definition tips : list nat := [4; 8; 12; 16; 20]%nat.

(** The callback of [tips.forEach] (lines 82-89), on the running [avgDist].
    Reading [.x] of a landmark that is not there throws. *)
Definition addTipDistance (landmarks : list Landmark) (wrist : option Landmark)
           (avgDist : R) (idx : nat) : Result R :=
  match nth_error landmarks idx, wrist with
  | Some tip, Some wrist =>
      let dx := x tip - x wrist in
      let dy := y tip - y wrist in
      let dz := z tip - z wrist in
      Ok (avgDist + sqrt (dx * dx + dy * dy + dz * dz))
  | _, _ => Throw TypeError
  end.

(** [forEach] over the indices, stopping at the first throw. *)
Fixpoint forEach (f : R -> nat -> Result R) (l : list nat) (acc : R) : Result R :=
  match l with
  | [] => Ok acc
  | idx :: l' =>
      match f acc idx with
      | Ok acc' => forEach f l' acc'
      | Throw e => Throw e
      end
  end.

(** The rescaling and clamping of lines 95-98. *)
Definition rescale (avgDist : R) : R :=
  let minVal := 0.15 in
  let maxVal := 0.45 in
  let openness := (avgDist - minVal) / (maxVal - minVal) in
  Math_max 0 (Math_min 1 openness).

(** The branch of a detected hand (lines 72-104). *)
Definition detectedHandData (landmarks : list Landmark) : Result HandData :=
  let wrist := nth_error landmarks 0 in
  match forEach (addTipDistance landmarks wrist) tips 0 with
  | Throw e => Throw e
  | Ok total =>
      let avgDist := total / 5 in
      let openness := rescale avgDist in
      Ok {| detected := true; isOpen := gt openness 0.5; openness := openness |}
  end.

(** What is handed to [onHandUpdate] for a detection result (lines 71-107). *)
Definition handUpdate (result : HandLandmarkerResult) : Result HandData :=
  match landmarks result with
  | Some (hand :: _) => detectedHandData hand
  | _ => Ok {| detected := false; isOpen := false; openness := 0 |}
  end.

Record Video : Type := mkVideo { currentTime : R }.

Record HandLandmarker : Type := mkHandLandmarker
  { detectForVideo : Video -> R -> HandLandmarkerResult }.

(** The refs [predictWebcam] reads and writes. *)
Record Refs : Type := mkRefs
  { landmarkerRef : option HandLandmarker;
    videoRef : option Video;
    lastVideoTimeRef : R }.

(** What one call of [predictWebcam] does to the outside: the calls of
    [onHandUpdate], and whether it asked for the next animation frame. *)
Record Effects : Type := mkEffects
  { onHandUpdate : list HandData;
    requestAnimationFrame : bool }.

(** [predictWebcam] (lines 63-110): the refs after the call, and its effects
    or the error that escaped it. *)
Definition predictWebcam (refs : Refs) (nowInMs : R) : Refs * Result Effects :=
  match landmarkerRef refs, videoRef refs with
  | Some landmarker, Some video =>
      if Req_dec_T (currentTime video) (lastVideoTimeRef refs) then
        (refs, Ok {| onHandUpdate := []; requestAnimationFrame := true |})
      else
        let refs' := {| landmarkerRef := landmarkerRef refs;
                        videoRef := videoRef refs;
                        lastVideoTimeRef := currentTime video |} in
        match handUpdate (detectForVideo landmarker video nowInMs) with
        | Ok data =>
            (refs', Ok {| onHandUpdate := [data]; requestAnimationFrame := true |})
        | Throw e => (refs', Throw e)
        end
  | _, _ => (refs, Ok {| onHandUpdate := []; requestAnimationFrame := false |})
  end.

(** The Euclidean distance between two landmarks, depth included, and the
    average distance from the wrist to five fingertips, as the contract of
    the gesture extractor words them. *)
Definition distance (a b : Landmark) : R :=
  sqrt ((x a - x b) * (x a - x b) + (y a - y b) * (y a - y b)
        + (z a - z b) * (z a - z b)).

Definition averageTipDistance (wrist t4 t8 t12 t16 t20 : Landmark) : R :=
  (distance t4 wrist + distance t8 wrist + distance t12 wrist
   + distance t16 wrist + distance t20 wrist) / 5.

(** Linear rescaling of [[lo, hi]] onto [[0, 1]], clamped. *)
Definition rescale_clamped (lo hi v : R) : R :=
  Rmax 0 (Rmin 1 ((v - lo) / (hi - lo))).

End HandController.

(** A concrete run: the wrist at the origin and every other landmark at
    (0.3, 0.4, 0), seen on a new video frame. *)
Module HandFixture.
Import Js types HandController.

Definition open_hand : list Landmark :=
  mkPoint3D 0 0 0 :: repeat (mkPoint3D 0.3 0.4 0) 20.

Definition open_hand_refs : Refs :=
  {| landmarkerRef :=
       Some {| detectForVideo :=
                 fun _ _ => {| landmarks := Some [open_hand] |} |};
     videoRef := Some {| currentTime := 1 |};
     lastVideoTimeRef := -1 |}.

End HandFixture.

(* ================================================================== *)
(** ** src/components/ParticleScene.tsx: the per-frame particle update *)
(* ================================================================== *)

Module ParticleScene.
Import Js types.

Record ParticleSceneProps : Type := mkParticleSceneProps
  { targetPoints : list Point3D;
    color : string;
    handOpenness : R;
    handDetected : bool }.

Definition PARTICLE_COUNT : nat := 4000.
Definition DAMPING_FACTOR : R := 0.06.
Definition EXPLOSION_SCALE : R := 6.0.

(** [currentPositions] (lines 22-28): random noise, three numbers per
    particle. *)
Definition currentPositions : Rand (list R) :=
  for_push (PARTICLE_COUNT * 3) (u <- Math_random ;; ret ((u - 0.5) * 15)) [].

(** Line 46. *)
Definition activeOpenness (props : ParticleSceneProps) : R :=
  if handDetected props then handOpenness props else 0.

(** Line 49. *)
Definition breathe (props : ParticleSceneProps) (time : R) : R :=
  if handDetected props then 0 else sin (time * 1.5) * 0.05.

(** Line 57: [i % (targetPoints.length || 1)]. *)
Definition targetIndex (targetPoints : list Point3D) (i : nat) : nat :=
  i mod (if (length targetPoints =? 0)%nat then 1 else length targetPoints).

(** Line 58; [None] is [undefined], a read past the end of the array. *)
Definition rawTarget (targetPoints : list Point3D) (i : nat) : option Point3D :=
  if (0 <? length targetPoints)%nat
  then nth_error targetPoints (targetIndex targetPoints i)
  else Some {| x := 0; y := 0; z := 0 |}.

(** Lines 60-65: one fresh draw per axis. *)
Definition jitteredTarget (rawTarget : Point3D) : Rand Point3D :=
  let jitter := 0.02 in
  u1 <- Math_random ;;
  u2 <- Math_random ;;
  u3 <- Math_random ;;
  ret {| x := x rawTarget + (u1 - 0.5) * jitter;
         y := y rawTarget + (u2 - 0.5) * jitter;
         z := z rawTarget + (u3 - 0.5) * jitter |}.

(** Line 79: the length that normalizes the direction from the center. *)
Definition len (tx ty tz : R) : R := sqrt (tx * tx + ty * ty + tz * tz) + 0.001.

(** Lines 68-90: the instantaneous target of particle [i]. *)
Definition instantTarget (target : Point3D) (time : R) (i : nat)
           (activeOpenness breathe : R) : R * R * R :=
  let noiseX := sin (time * 2 + INR i * 0.1) * 0.5 in
  let noiseY := cos (time * 1.5 + INR i * 0.1) * 0.5 in
  let noiseZ := sin (time + INR i * 0.1) * 0.5 in
  let baseScale := 1.8 in
  let tx := x target * baseScale * (1 + breathe) in
  let ty := y target * baseScale * (1 + breathe) in
  let tz := z target * baseScale * (1 + breathe) in
  let len := len tx ty tz in
  let dirX := tx / len in
  let dirY := ty / len in
  let dirZ := tz / len in
  let explosionForce := Math_pow activeOpenness 1.5 * EXPLOSION_SCALE in
  (tx + dirX * explosionForce + noiseX * activeOpenness * 2.5,
   ty + dirY * explosionForce + noiseY * activeOpenness * 2.5,
   tz + dirZ * explosionForce + noiseZ * activeOpenness * 2.5).

(** The update of one coordinate (lines 93-95):
    [position += (target - position) * DAMPING_FACTOR]. *)
Definition damp (position target : R) : R :=
  position + (target - position) * DAMPING_FACTOR.

Definition lerp (positions : list R) (i3 : nat) (t : R * R * R) : list R :=
  let '(tx, ty, tz) := t in
  let positions := typed_set positions i3 (damp (typed_get positions i3) tx) in
  let positions :=
    typed_set positions (i3 + 1) (damp (typed_get positions (i3 + 1)) ty) in
  typed_set positions (i3 + 2) (damp (typed_get positions (i3 + 2)) tz).

(** The body of the loop over the particles (lines 52-95).  Reading [.x] of
    an undefined raw target throws, before any random number is drawn. *)
Definition particle (props : ParticleSceneProps) (time : R) (i : nat)
           (positions : list R) : Rand (Result (list R)) :=
  let i3 := (i * 3)%nat in
  match rawTarget (targetPoints props) i with
  | None => ret (Throw TypeError)
  | Some rawTarget =>
      target <- jitteredTarget rawTarget ;;
      ret (Ok (lerp positions i3
                    (instantTarget target time i
                                   (activeOpenness props) (breathe props time))))
  end.

(** [for (let i = 0; i < PARTICLE_COUNT; i++)] over the positions: [n]
    iterations from index [i] on. *)
Fixpoint for_particles (n i : nat)
         (body : nat -> list R -> Rand (Result (list R)))
         (positions : list R) : Rand (Result (list R)) :=
  match n with
  | O => ret (Ok positions)
  | S n' =>
      r <- body i positions ;;
      match r with
      | Ok positions' => for_particles n' (S i) body positions'
      | Throw e => ret (Throw e)
      end
  end.

(** The mesh the frame callback works on: the position buffer of its
    geometry (a Float32Array of three numbers per particle, read here as
    real numbers), the flag that asks for a redraw, and its rotation. *)
Record Mesh : Type := mkMesh
  { positions : list R;
    needsUpdate : bool;
    rotation_y : R;
    rotation_z : R }.

(** The callback of [useFrame] (lines 37-105), at elapsed time [time]. *)
Definition useFrame (props : ParticleSceneProps) (meshRef : option Mesh)
           (time : R) : Rand (Result (option Mesh)) :=
  match meshRef with
  | None => ret (Ok None)
  | Some mesh =>
      r <- for_particles PARTICLE_COUNT 0 (particle props time) (positions mesh) ;;
      match r with
      | Throw e => ret (Throw e)
      | Ok positions' =>
          let rotationSpeed := 0.001 + activeOpenness props * 0.005 in
          ret (Ok (Some {| positions := positions';
                           needsUpdate := true;
                           rotation_y := rotation_y mesh + rotationSpeed;
                           rotation_z := sin (time * 0.2) * 0.1 |}))
      end
  end.

(** The source after [k] more draws. *)
Definition advance (s : RandomSource) (k : nat) : RandomSource :=
  mkRandomSource (draws s) (k + cursor s).

(** The instantaneous target the loop body computes for particle [i] when
    it finds the random source in state [s]. *)
Definition particleTarget (props : ParticleSceneProps) (time : R) (i : nat)
           (s : RandomSource) : R * R * R :=
  match rawTarget (targetPoints props) i with
  | Some rawTarget =>
      instantTarget (fst (jitteredTarget rawTarget s)) time i
                    (activeOpenness props) (breathe props time)
  | None => (0, 0, 0)
  end.

(** Coordinate [k] (0, 1 or 2) of a triple. *)
Definition coordinate (k : nat) (t : R * R * R) : R :=
  let '(tx, ty, tz) := t in
  match k with
  | O => tx
  | S O => ty
  | _ => tz
  end.

(** No hand and no target points, used as a concrete input. *)
Definition idle_props : ParticleSceneProps :=
  {| targetPoints := [];
     color := "#00eaff";
     handOpenness := 0;
     handDetected := false |}.

(** A mesh at rest at the origin, used as a concrete input. *)
Definition still_mesh : Mesh :=
  {| positions := repeat 0 (PARTICLE_COUNT * 3);
     needsUpdate := false;
     rotation_y := 0;
     rotation_z := 0 |}.

End ParticleScene.

(* ================================================================== *)
(** ** src/components/AudioController.tsx: the audio parameter mapping *)
(* ================================================================== *)

Module AudioController.
Import Js.

Record AudioControllerProps : Type := mkAudioControllerProps
  { enabled : bool;
    handOpenness : R;
    handDetected : bool }.

(** An [AudioParam]: its value when the automation starts, and the calls of
    [setTargetAtTime (target, startTime, timeConstant)] made on it. *)
Record AudioParam : Type := mkAudioParam
  { value : R;
    automation : list (R * R * R) }.

Definition setTargetAtTime (target startTime timeConstant : R) (p : AudioParam)
  : AudioParam :=
  {| value := value p;
     automation := automation p ++ [(target, startTime, timeConstant)] |}.

Record AudioContext : Type := mkAudioContext { currentTime : R }.
Record BiquadFilterNode : Type := mkBiquadFilterNode { frequency : AudioParam }.
Record GainNode : Type := mkGainNode { gain : AudioParam }.

Record Refs : Type := mkRefs
  { audioCtxRef : option AudioContext;
    masterGainRef : option GainNode;
    filterNodeRef : option BiquadFilterNode }.

(** Line 39. *)
Definition intensity (props : AudioControllerProps) : R :=
  if handDetected props then handOpenness props else 0.1.

(** Lines 44-47. *)
Definition targetFreq (intensity : R) : R :=
  let minFreq := 150 in
  let maxFreq := 6000 in
  minFreq + Math_pow intensity 2 * (maxFreq - minFreq).

(** Lines 51-53. *)
Definition targetVol (intensity : R) : R :=
  let minVol := 0.3 in
  let maxVol := 0.6 in
  minVol + intensity * (maxVol - minVol).

(** The effect that modulates the sound (lines 31-60). *)
Definition modulate (props : AudioControllerProps) (refs : Refs) : Refs :=
  match audioCtxRef refs, filterNodeRef refs, masterGainRef refs with
  | Some ctx, Some filterNode, Some masterGain =>
      let now := currentTime ctx in
      let intensity := intensity props in
      {| audioCtxRef := Some ctx;
         filterNodeRef :=
           Some {| frequency :=
                     setTargetAtTime (targetFreq intensity) now 0.1
                                     (frequency filterNode) |};
         masterGainRef :=
           Some {| gain :=
                     setTargetAtTime (targetVol intensity) now 0.1
                                     (gain masterGain) |} |}
  | _, _, _ => refs
  end.

(** The value of an [AudioParam] at time [t] under a
    [setTargetAtTime (target, startTime, timeConstant)] that found it at
    [v0], as the Web Audio API defines the exponential approach. *)
Definition approach (v0 target startTime timeConstant t : R) : R :=
  target + (v0 - target) * exp (- ((t - startTime) / timeConstant)).

End AudioController.

(* ================================================================== *)
(** ** src/App.tsx: what the two consumers receive *)
(* ================================================================== *)

Module App.
Import Js types.

(** The props of [<ParticleScene>] (lines 80-85). *)
Definition particleSceneProps (targetPoints : list Point3D) (particleColor : string)
           (handData : HandData) : ParticleScene.ParticleSceneProps :=
  {| ParticleScene.targetPoints := targetPoints;
     ParticleScene.color := particleColor;
     ParticleScene.handOpenness := openness handData;
     ParticleScene.handDetected := detected handData |}.

(** The props of [<AudioController>] (lines 73-77). *)
Definition audioControllerProps (isAudioEnabled : bool) (handData : HandData)
  : AudioController.AudioControllerProps :=
  {| AudioController.enabled := isAudioEnabled;
     AudioController.handOpenness := openness handData;
     AudioController.handDetected := detected handData |}.

End App.

(* ================================================================== *)
(** ** src/services/geminiService.ts: the remote shape service *)
(* ================================================================== *)

(** The file holds three revisions of the module (lines 1-64, 64-131 and
    131-193).  They share the handling of the response and differ in what
    they do without a credential. *)
Module geminiService.
Import Js.

(** A value made by [JSON.parse]. *)
#[local] Unset Elimination Schemes.
Inductive Json : Type :=
| JNull
| JBool (b : bool)
| JNumber (n : R)
| JString (s : string)
| JArray (items : list Json)
| JObject (members : list (string * Json)).
#[local] Set Elimination Schemes.

(** The host: [process] may not exist, and [process.env.API_KEY] is a
    string or [undefined]. *)
Inductive Process : Type :=
| NoProcess
| Env (API_KEY : option string).

Definition process_env_API_KEY (process : Process) : Result (option string) :=
  match process with
  | NoProcess => Throw ReferenceError
  | Env API_KEY => Ok API_KEY
  end.

(** The key when it is truthy: [undefined] and the empty string are not. *)
Definition truthy_key (apiKey : option string) : option string :=
  match apiKey with
  | Some key => if (key =? "")%string then None else Some key
  | None => None
  end.

(** What is sent to the collaborator: the key of the client, the model, and
    the two values the prompt is made of. *)
Record Request : Type := mkRequest
  { apiKey : string;
    model : string;
    description : string;
    count : Z }.

(** [response.text], by what the code does with it: falsy ([undefined] or
    empty), a text that [JSON.parse] rejects, or a text that parses. *)
Inductive ResponseText : Type :=
| NoText
| NotJson
| Parses (parsed : Json).

(** The settled promise of [ai.models.generateContent]. *)
Inductive Response : Type :=
| Rejects (e : Thrown)
| Resolves (text : ResponseText).

Inductive Console : Type :=
| console_error (message : string) (error : option Thrown)
| console_warn (message : string).

(** A call of [generateShapePoints]: what it wrote to the console and how
    its promise settled. *)
Record Run : Type := mkRun
  { console : list Console;
    settled : Result Json }.

(** [count: number = 1000]. *)
Definition count_or_default (count : option Z) : Z :=
  match count with
  | Some c => c
  | None => 1000%Z
  end.

Fixpoint member (key : string) (members : list (string * Json)) : option Json :=
  match members with
  | [] => None
  | (k, v) :: rest => if (k =? key)%string then Some v else member key rest
  end.

(** [parsed.points]: a throw on [null], [undefined] ([None]) where there is
    no such property. *)
Definition points (parsed : Json) : Result (option Json) :=
  match parsed with
  | JNull => Throw TypeError
  | JObject members => Ok (member "points" members)
  | _ => Ok None
  end.

Definition truthy (v : Json) : bool :=
  match v with
  | JNull => false
  | JBool b => b
  | JNumber n => if Req_dec_T n 0 then false else true
  | JString s => negb (s =? "")%string
  | JArray _ => true
  | JObject _ => true
  end.

(** [v || []]. *)
Definition or_empty (v : option Json) : Json :=
  match v with
  | Some v => if truthy v then v else JArray []
  | None => JArray []
  end.

(** From the settled call to the returned points (lines 54-58, 121-125 and
    184-188); [emptyMessage] is the message of the error for a falsy text. *)
Definition readPoints (emptyMessage : string) (response : Response) : Result Json :=
  match response with
  | Rejects e => Throw e
  | Resolves NoText => Throw (Error emptyMessage)
  | Resolves NotJson => Throw SyntaxError
  | Resolves (Parses parsed) =>
      match points parsed with
      | Throw e => Throw e
      | Ok v => Ok (or_empty v)
      end
  end.

(** Lines 1-64. *)
Module Rev1.

Definition getAI (process : Process) : Result string :=
  match process_env_API_KEY process with
  | Throw e => Throw e
  | Ok apiKey =>
      match truthy_key apiKey with
      | None =>
          Throw (Error "API Key is missing. Please configure your environment variables.")
      | Some key => Ok key
      end
  end.

Definition generateShapePoints (process : Process)
           (generateContent : Request -> Response)
           (description : string) (count : option Z) : Run :=
  let attempt :=
    match getAI process with
    | Throw e => Throw e
    | Ok key =>
        readPoints "Empty response from Gemini"
                   (generateContent {| apiKey := key;
                                       model := "gemini-3-flash-preview";
                                       description := description;
                                       count := count_or_default count |})
    end in
  match attempt with
  | Ok v => {| console := []; settled := Ok v |}
  | Throw error =>
      {| console := [console_error "Gemini Shape Generation Error:" (Some error)];
         settled := Throw error |}
  end.

End Rev1.

(** Lines 64-131. *)
Module Rev2.

Definition getApiKey (process : Process) : string :=
  match process_env_API_KEY process with
  | Ok (Some key) => key
  | Ok None => ""
  | Throw _ => ""
  end.

Definition generateShapePoints (process : Process)
           (generateContent : Request -> Response)
           (description : string) (count : option Z) : Run :=
  let apiKey := getApiKey process in
  if (apiKey =? "")%string then
    {| console :=
         [console_error
            "Gemini API Key is missing. Please set it in your environment variables."
            None];
       settled := Throw (Error "API_KEY_MISSING") |}
  else
    match readPoints "Empty response"
                     (generateContent {| apiKey := apiKey;
                                         model := "gemini-3-flash-preview";
                                         description := description;
                                         count := count_or_default count |}) with
    | Ok v => {| console := []; settled := Ok v |}
    | Throw error =>
        {| console := [console_error "Gemini Error:" (Some error)];
           settled := Throw error |}
    end.

End Rev2.

(** Lines 131-193. *)
Module Rev3.

Definition generateShapePoints (process : Process)
           (generateContent : Request -> Response)
           (description : string) (count : option Z) : Run :=
  match process_env_API_KEY process with
  | Throw e => {| console := []; settled := Throw e |}
  | Ok API_KEY =>
      match truthy_key API_KEY with
      | None =>
          {| console := [console_warn "No API Key found. Returning empty shape."];
             settled := Ok (JArray []) |}
      | Some key =>
          match readPoints "Empty response from Gemini"
                           (generateContent {| apiKey := key;
                                               model := "gemini-2.5-flash";
                                               description := description;
                                               count := count_or_default count |}) with
          | Ok v => {| console := []; settled := Ok v |}
          | Throw error =>
              {| console :=
                   [console_error "Gemini Shape Generation Error:" (Some error)];
                 settled := Throw error |}
          end
      end
  end.

End Rev3.

(** The credential is absent: there is no [process], or the key is
    [undefined] or empty. *)
Definition credential_absent (process : Process) : Prop :=
  match process with
  | NoProcess => True
  | Env API_KEY => truthy_key API_KEY = None
  end.

(** How the failures of the call reach the caller once the credential is
    there: a rejection is rethrown as it is, a falsy text and a text that is
    not JSON throw their own errors, the error [missing] of the absent
    credential appears only if the collaborator rejects with it, and a value
    is returned only for a response that parsed. *)
Definition call_failures_surface (missing : Thrown) (emptyMessage : string)
           (response : Response) (result : Result Json) : Prop :=
  (forall e, response = Rejects e -> result = Throw e) /\
  (response = Resolves NoText -> result = Throw (Error emptyMessage)) /\
  (response = Resolves NotJson -> result = Throw SyntaxError) /\
  (result = Throw missing -> response = Rejects missing) /\
  (forall v, result = Ok v ->
     exists parsed w, response = Resolves (Parses parsed) /\
                      points parsed = Ok w /\ v = or_empty w).

(** A collaborator that is out of service, and one that answers with the
    JSON text of an object without points. *)
Definition remote_down : Request -> Response :=
  fun _ => Rejects (OtherError "ApiError" "503 Service Unavailable").

Definition remote_no_points : Request -> Response :=
  fun _ => Resolves (Parses (JObject [])).

End geminiService.

(* ================================================================== *)
(** ** Vocabulary for further properties of the shape generators *)
(* ================================================================== *)

Module shape_facts.
Import Js types geometry.

(** A point of the fuzzy cube surface: inside the cube of half-side 1.2,
    with at least one coordinate on a face. *)
Definition on_cube_face (p : Point3D) : Prop :=
  (-1.2 <= x p <= 1.2) /\ (-1.2 <= y p <= 1.2) /\ (-1.2 <= z p <= 1.2) /\
  (Rabs (x p) = 1.2 \/ Rabs (y p) = 1.2 \/ Rabs (z p) = 1.2).

(** The envelope of the bottle: within the body radius 0.8 of the vertical
    axis, between the heights -1.5 and 2.7. *)
Definition in_bottle_envelope (p : Point3D) : Prop :=
  x p * x p + z p * z p <= 0.8 * 0.8 /\ -1.5 <= y p < 2.7.

(** The sphere point made from the two draws [u] (angle) and [v] (height). *)
Definition sphere_of_draws (u v : R) : Point3D :=
  let theta := u * 2 * PI in
  let phi := acos (2 * v - 1) in
  {| x := 1.2 * sin phi * cos theta;
     y := 1.2 * sin phi * sin theta;
     z := 1.2 * cos phi |}.

End shape_facts.

(* ================================================================== *)
(** ** src/components/HandController.tsx: loading the tracker and the camera *)
(* ================================================================== *)

Module HandCamera.
Import Js types HandController.

(** A hand moved as a whole by the vector [d]. *)
Definition translate (d : Landmark) (p : Landmark) : Landmark :=
  {| x := x p + x d; y := y p + y d; z := z p + z d |}.

(** The state the component shows: [loading], [error], [permissionGranted]. *)
Record Ui : Type := mkUi
  { loading : bool;
    error : option string;
    permissionGranted : bool }.

(** The state at mount (lines 12-14). *)
Definition mounted : Ui :=
  {| loading := true; error := None; permissionGranted := false |}.

(** What the host answers: the vision files, the creation of the
    landmarker, the camera stream, and whether the video element is there
    ([videoRef.current]). *)
Record Host : Type := mkHost
  { forVisionTasks : Result unit;
    createFromOptions : Result HandLandmarker;
    getUserMedia : Result unit;
    videoElement : bool }.

(** After the initialisation: the state shown, the landmarker kept, what
    was written to the console, and whether the video plays the stream with
    [predictWebcam] listening for its first frame. *)
Record Started : Type := mkStarted
  { ui : Ui;
    landmarker : option HandLandmarker;
    console : list Thrown;
    streaming : bool }.

(** [startCamera] (lines 48-61), from the state [u]. *)
Definition startCamera (host : Host) (u : Ui) : Ui * bool :=
  match getUserMedia host with
  | Ok _ =>
      if videoElement host
      then ({| loading := loading u; error := error u;
               permissionGranted := true |}, true)
      else (u, false)
  | Throw _ =>
      ({| loading := loading u; error := Some "Camera permission denied."%string;
          permissionGranted := permissionGranted u |}, false)
  end.

(** The [catch] of [initLandmarker] (lines 35-39). *)
Definition loadFailed (err : Thrown) (u : Ui) : Started :=
  {| ui := {| loading := false;
              error := Some "Failed to load AI Vision models."%string;
              permissionGranted := permissionGranted u |};
     landmarker := None;
     console := [err];
     streaming := false |}.

(** [initLandmarker] (lines 20-40), from the state at mount. *)
Definition initLandmarker (host : Host) : Started :=
  match forVisionTasks host with
  | Throw err => loadFailed err mounted
  | Ok _ =>
      match createFromOptions host with
      | Throw err => loadFailed err mounted
      | Ok created =>
          let u := {| loading := false; error := error mounted;
                      permissionGranted := permissionGranted mounted |} in
          let (u', on) := startCamera host u in
          {| ui := u'; landmarker := Some created; console := [];
             streaming := on |}
      end
  end.

(** The vision files and the landmarker both loaded; the camera stream was
    granted. *)
Definition models_loaded (host : Host) : Prop :=
  (exists v, forVisionTasks host = Ok v) /\
  (exists created, createFromOptions host = Ok created).

Definition camera_granted (host : Host) : Prop :=
  exists stream, getUserMedia host = Ok stream.

(** A tracker that reports one hand of five landmarks only, and refs that
    see it on a new video frame. *)
Definition short_hand : list Landmark := repeat (mkPoint3D 0 0 0) 5.

Definition short_hand_refs : Refs :=
  {| landmarkerRef :=
       Some {| detectForVideo :=
                 fun _ _ => {| landmarks := Some [short_hand] |} |};
     videoRef := Some {| currentTime := 1 |};
     lastVideoTimeRef := -1 |}.

End HandCamera.

(* ================================================================== *)
(** ** src/components/AudioController.tsx: building and releasing the drone *)
(* ================================================================== *)

(** The wiring of the nodes ([connect]) and the type and Q of the filter are
    not represented: nothing below reads them. *)
Module AudioEngine.
Import Js AudioController.

Inductive OscillatorType : Type := triangle | sine.

(** An oscillator with the gain node it feeds: its waveform, base frequency
    and detune, the level of its gain node, and whether it was started and
    not yet stopped. *)
Record Oscillator : Type := mkOscillator
  { type : OscillatorType;
    frequency : R;
    detune : R;
    level : R;
    running : bool }.

(** The refs of the component: those of the modulation, the oscillators and
    the flag of the initialisation. *)
Record Engine : Type := mkEngine
  { refs : Refs;
    oscillatorsRef : list Oscillator;
    isInitializedRef : bool }.

(** The refs at mount (lines 10-14). *)
Definition unmounted : Engine :=
  {| refs := {| audioCtxRef := None; masterGainRef := None; filterNodeRef := None |};
     oscillatorsRef := [];
     isInitializedRef := false |}.

(** Lines 84-91. *)
Definition frequencies : list R :=
  [65.41; 130.81; 155.56; 196.00; 293.66; 587.33].

(** The callback of [frequencies.forEach] (lines 95-114) for the frequency
    [freq] at index [i]. *)
Definition createVoice (freq : R) (i : nat) : Rand Oscillator :=
  u <- Math_random ;;
  let volume := 1.0 / (INR i + 1.5) in
  ret {| type := match i with O => triangle | _ => sine end;
         frequency := freq;
         detune := (u - 0.5) * 10;
         level := volume;
         running := true |}.

(** [frequencies.forEach((freq, i) => ... newOscillators.push(osc))], from
    index [i] on. *)
Fixpoint forEachVoice (freqs : list R) (i : nat) (newOscillators : list Oscillator)
  : Rand (list Oscillator) :=
  match freqs with
  | [] => ret newOscillators
  | freq :: rest =>
      osc <- createVoice freq i ;;
      forEachVoice rest (S i) (newOscillators ++ [osc])
  end.

(** [initAudio] (lines 62-125).  [newContext] is what [new AudioContextClass()]
    gives: a context, or a throw ([None]), which the [catch] writes to the
    console, leaving the refs as they were. *)
Definition initAudio (newContext : option AudioContext) (e : Engine)
  : Rand (Engine * list string) :=
  match newContext with
  | None => ret (e, ["Audio init failed"%string])
  | Some ctx =>
      let masterGain := {| gain := {| value := 0; automation := [] |} |} in
      let filter := {| AudioController.frequency :=
                         {| value := 200; automation := [] |} |} in
      newOscillators <- forEachVoice frequencies 0 [] ;;
      ret ({| refs :=
                {| audioCtxRef := Some ctx;
                   masterGainRef :=
                     Some {| gain := setTargetAtTime 0.3 (currentTime ctx) 2
                                                     (gain masterGain) |};
                   filterNodeRef := Some filter |};
              oscillatorsRef := newOscillators;
              isInitializedRef := true |}, [])
  end.

(** The callback [stopAudio] hands to [setTimeout] (lines 135-143), with the
    context it closes. *)
Record Timer : Type := mkTimer
  { closes : AudioContext;
    delay : R }.

(** [stopAudio] (lines 127-145): the fade out, and the timer it sets. *)
Definition stopAudio (e : Engine) : Engine * option Timer :=
  match audioCtxRef (refs e) with
  | None => (e, None)
  | Some ctx =>
      let masterGainRef' :=
        match masterGainRef (refs e) with
        | Some masterGain =>
            Some {| gain := setTargetAtTime 0 (currentTime ctx) 0.5
                                            (gain masterGain) |}
        | None => None
        end in
      ({| refs := {| audioCtxRef := Some ctx;
                     masterGainRef := masterGainRef';
                     filterNodeRef := filterNodeRef (refs e) |};
          oscillatorsRef := oscillatorsRef e;
          isInitializedRef := isInitializedRef e |},
       Some {| closes := ctx; delay := 500 |})
  end.

(** What the timer did when it fired: the oscillators it stopped and the
    context it closed. *)
Record Released : Type := mkReleased
  { stopped : list Oscillator;
    closed : AudioContext }.

Definition stop (osc : Oscillator) : Oscillator :=
  {| type := type osc; frequency := frequency osc; detune := detune osc;
     level := level osc; running := false |}.

(** The timer fires (lines 136-142). *)
Definition timerFires (timer : Timer) (e : Engine) : Engine * Released :=
  ({| refs := {| audioCtxRef := None;
                 masterGainRef := masterGainRef (refs e);
                 filterNodeRef := filterNodeRef (refs e) |};
      oscillatorsRef := [];
      isInitializedRef := false |},
   {| stopped := map stop (oscillatorsRef e); closed := closes timer |}).

(** The body of the effect on [enabled] (lines 18-22). *)
Definition lifecycle (enabled : bool) (newContext : option AudioContext)
           (e : Engine) : Rand (Engine * list string * option Timer) :=
  if enabled && negb (isInitializedRef e) then
    r <- initAudio newContext e ;;
    ret (fst r, snd r, None)
  else if negb enabled && isInitializedRef e then
    let (e', timer) := stopAudio e in
    ret (e', [], timer)
  else
    ret (e, [], None).

(** A context whose clock reads 3, used as a concrete input. *)
Definition some_context : AudioContext := {| currentTime := 3 |}.

End AudioEngine.

(* ================================================================== *)
(** ** src/App.tsx: choosing and generating shapes *)
(* ================================================================== *)

Module AppHandlers.
Import Js types geometry geminiService.

(** [ShapeType] of src/types.ts. *)
Inductive ShapeType : Type := SPHERE | CUBE | BOTTLE | GEMINI_GENERATED.

(** The value of the state [targetPoints]: the points of a generator, or
    whatever the remote service resolved with, which is stored unchecked. *)
Inductive TargetPoints : Type :=
| Local (points : list Point3D)
| Remote (value : Json).

(** The part of the state the two handlers read and write (lines 12-17). *)
Record AppState : Type := mkAppState
  { targetPoints : TargetPoints;
    currentShape : ShapeType;
    customPrompt : string;
    isGenerating : bool }.

(** The state at the first render. *)
Definition first_render : AppState :=
  {| targetPoints := Local [];
     currentShape := BOTTLE;
     customPrompt := "";
     isGenerating := false |}.

(** [handleShapeChange] (lines 39-51). *)
Definition handleShapeChange (shape : ShapeType) (st : AppState) : Rand AppState :=
  let st := {| targetPoints := targetPoints st;
               currentShape := shape;
               customPrompt := customPrompt st;
               isGenerating := isGenerating st |} in
  points <- match shape with
            | SPHERE => generateSphere 3500
            | CUBE => generateCube 3500
            | BOTTLE => generateBottle 3500
            | GEMINI_GENERATED => ret []
            end ;;
  ret (if (0 <? List.length points)%nat
       then {| targetPoints := Local points;
               currentShape := currentShape st;
               customPrompt := customPrompt st;
               isGenerating := isGenerating st |}
       else st).

(** Line 23: [!!(process.env.API_KEY)]. *)
Definition hasApiKey (API_KEY : option string) : bool :=
  match truthy_key API_KEY with
  | Some _ => true
  | None => false
  end.

(** [err === text] for a caught error and a string: every value of [Thrown]
    is an object, and an object is never strictly equal to a string. *)
Definition strictly_equals_string (err : Thrown) (text : string) : bool :=
  match err with
  | Error _ => false
  | TypeError => false
  | ReferenceError => false
  | SyntaxError => false
  | OtherError _ _ => false
  end.

(** What a call of [handleGeminiGenerate] leaves: the state, the errors
    written to the console and the alerts shown. *)
Record Generated : Type := mkGenerated
  { state : AppState;
    logged : list Thrown;
    alerts : list string }.

(** [handleGeminiGenerate] (lines 53-68).  [trim] is [String.prototype.trim];
    [service] is the imported [generateShapePoints]. *)
Definition handleGeminiGenerate (trim : string -> string)
           (API_KEY : option string) (service : string -> option Z -> Run)
           (st : AppState) : Generated :=
  if (trim (customPrompt st) =? "")%string || negb (hasApiKey API_KEY) then
    {| state := st; logged := []; alerts := [] |}
  else
    match settled (service (customPrompt st) (Some 2500%Z)) with
    | Ok points =>
        {| state := {| targetPoints := Remote points;
                       currentShape := GEMINI_GENERATED;
                       customPrompt := customPrompt st;
                       isGenerating := false |};
           logged := [];
           alerts := [] |}
    | Throw err =>
        {| state := {| targetPoints := targetPoints st;
                       currentShape := GEMINI_GENERATED;
                       customPrompt := customPrompt st;
                       isGenerating := false |};
           logged := [err];
           alerts := [if strictly_equals_string err "API_KEY_MISSING"
                      then "API Key is missing in Netlify settings."%string
                      else "Failed to generate shape."%string] |}
    end.

(** A state with a prompt typed in, used as a concrete input. *)
Definition prompted : AppState :=
  {| targetPoints := Local [mkPoint3D 0 0 0];
     currentShape := SPHERE;
     customPrompt := "cat";
     isGenerating := false |}.

End AppHandlers.
(* ================================================================== *)
(** ** Properties of the shape generators *)
(* ================================================================== *)

Section GeneratorLoop.
Import Js.
Context {A : Type}.

Lemma for_push_length (n : nat) (body : Rand A) :
  forall (points : list A) (s : RandomSource),
    length (fst (for_push n body points s)) = (length points + n)%nat.
Proof.
  induction n as [|n IH]; intros points s; simpl.
  - unfold ret; simpl; lia.
  - unfold bind. destruct (body s) as [p s'].
    rewrite IH, length_app; simpl; lia.
Qed.

(** An invariant [I] of the random source that the body keeps, and a
    property [P] the body gives to each point it makes, hold of the whole
    result of the loop. *)
Lemma for_push_Forall (I : RandomSource -> Prop) (P : A -> Prop)
      (body : Rand A)
      (Hbody : forall s, I s -> P (fst (body s)) /\ I (snd (body s))) :
  forall (n : nat) (points : list A) (s : RandomSource),
    I s -> Forall P points -> Forall P (fst (for_push n body points s)).
Proof.
  induction n as [|n IH]; intros points s Hs Hpts; simpl.
  - exact Hpts.
  - unfold bind. destruct (Hbody s Hs) as [HP HI].
    destruct (body s) as [p s']; simpl in HP, HI.
    apply IH; [exact HI|].
    apply Forall_app; split; [exact Hpts | constructor; [exact HP | constructor]].
Qed.

End GeneratorLoop.

Section RandomSourceFacts.
Import Js.

Lemma Math_random_range (s : RandomSource) :
  unit_draws s -> 0 <= fst (Math_random s) < 1.
Proof. intros H; apply H. Qed.

Lemma Math_random_keeps (s : RandomSource) :
  unit_draws s -> unit_draws (snd (Math_random s)).
Proof. intros H n; apply H. Qed.

End RandomSourceFacts.

(** Case analysis on the comparisons of real numbers the code branches on. *)
Ltac case_Rlt :=
  repeat match goal with
         | |- context [Rlt_dec ?a ?b] => destruct (Rlt_dec a b); try lra
         end.

Section ShapeGenerators.
Import Js types geometry.

Lemma generateSphere_length (count : Z) (s : RandomSource) :
  length (fst (generateSphere count s)) = iterations count.
Proof. unfold generateSphere. rewrite for_push_length. reflexivity. Qed.

Lemma generateCube_length (count : Z) (s : RandomSource) :
  length (fst (generateCube count s)) = iterations count.
Proof. unfold generateCube. rewrite for_push_length. reflexivity. Qed.

Lemma generateBottle_length (count : Z) (s : RandomSource) :
  length (fst (generateBottle count s)) = iterations count.
Proof. unfold generateBottle. rewrite for_push_length. reflexivity. Qed.

(** A point in spherical coordinates with radius 1.2 is at distance 1.2
    from the origin, whatever the two angles. *)
Lemma spherical_norm (phi theta : R) :
  norm {| x := 1.2 * sin phi * cos theta;
          y := 1.2 * sin phi * sin theta;
          z := 1.2 * cos phi |} = 1.2.
Proof.
  unfold norm; simpl.
  replace (1.2 * sin phi * cos theta * (1.2 * sin phi * cos theta)
           + 1.2 * sin phi * sin theta * (1.2 * sin phi * sin theta)
           + 1.2 * cos phi * (1.2 * cos phi))
    with (1.2 * 1.2 * ((sin phi)² * ((sin theta)² + (cos theta)²) + (cos phi)²))
    by (unfold Rsqr; ring).
  rewrite sin2_cos2, Rmult_1_r, sin2_cos2, Rmult_1_r.
  apply sqrt_square; lra.
Qed.

Lemma sphere_point_norm (s : RandomSource) :
  norm (fst (sphere_point s)) = 1.2.
Proof. unfold sphere_point, bind, Math_random, ret; simpl. apply spherical_norm. Qed.

Lemma generateSphere_on_shell (count : Z) (s : RandomSource) :
  Forall (fun p => norm p = 1.2) (fst (generateSphere count s)).
Proof.
  unfold generateSphere.
  apply (for_push_Forall (fun _ => True)); auto.
  intros s' _; split; [apply sphere_point_norm | exact I].
Qed.

(** C9. For every count N >= 0, generateSphere(N), generateCube(N) and
    generateBottle(N) each return exactly N points (none for N = 0), and
    every point of generateSphere(N) is at Euclidean distance 1.2 from the
    origin. *)
Theorem generators_return_count_points
        (N : Z) (HN : (0 <= N)%Z) (s : RandomSource) :
  Z.of_nat (length (fst (generateSphere N s))) = N /\
  Z.of_nat (length (fst (generateCube N s))) = N /\
  Z.of_nat (length (fst (generateBottle N s))) = N /\
  (N = 0%Z -> fst (generateSphere N s) = [] /\
              fst (generateCube N s) = [] /\
              fst (generateBottle N s) = []) /\
  Forall (fun p => norm p = 1.2) (fst (generateSphere N s)).
Proof.
  rewrite generateSphere_length, generateCube_length, generateBottle_length.
  unfold iterations. rewrite Z2Nat.id by exact HN.
  repeat split; try reflexivity; try (subst N; reflexivity).
  apply generateSphere_on_shell.
Qed.

End ShapeGenerators.

Section BottleProfile.
Import Js types geometry.

Lemma bottleRadius_body (s : RandomSource) (y : R) :
  0.05 <= y < 0.6 -> bottleRadius y s = (0.8, s).
Proof. intros H. unfold bottleRadius. case_Rlt. reflexivity. Qed.

Lemma bottleRadius_shoulder (s : RandomSource) (y : R) :
  0.6 <= y < 0.7 ->
  bottleRadius y s = (0.8 * (1 - (y - 0.6) / 0.1) + 0.3 * ((y - 0.6) / 0.1), s).
Proof. intros H. unfold bottleRadius. case_Rlt. reflexivity. Qed.

Lemma bottleRadius_neck (s : RandomSource) (y : R) :
  0.7 <= y < 0.95 -> bottleRadius y s = (0.3, s).
Proof. intros H. unfold bottleRadius. case_Rlt. reflexivity. Qed.

Lemma bottleRadius_lip (s : RandomSource) (y : R) :
  0.95 <= y -> bottleRadius y s = (0.35, s).
Proof. intros H. unfold bottleRadius. case_Rlt. reflexivity. Qed.

Lemma bottleRadius_base (s : RandomSource) (y : R) :
  y < 0.05 ->
  bottleRadius y s = (sqrt (draws s (cursor s)) * 0.8, snd (Math_random s)).
Proof. intros H. unfold bottleRadius. case_Rlt. reflexivity. Qed.

Lemma radiusAt_near_shoulder_start (s : RandomSource) (y : R) :
  Rabs (y - 0.6) < 0.1 -> Rabs (radiusAt s y - 0.8) <= 5 * Rabs (y - 0.6).
Proof.
  intros H. unfold radiusAt.
  destruct (Rlt_dec y 0.6) as [Hlt|Hge].
  - rewrite bottleRadius_body.
    + simpl. replace (0.8 - 0.8) with 0 by lra. rewrite Rabs_R0.
      pose proof (Rabs_pos (y - 0.6)); lra.
    + unfold Rabs in H; destruct (Rcase_abs (y - 0.6)); lra.
  - rewrite bottleRadius_shoulder.
    + simpl.
      replace (0.8 * (1 - (y - 0.6) / 0.1) + 0.3 * ((y - 0.6) / 0.1) - 0.8)
        with (- (5 * (y - 0.6))) by lra.
      rewrite Rabs_Ropp, Rabs_mult, (Rabs_right 5) by lra. lra.
    + unfold Rabs in H; destruct (Rcase_abs (y - 0.6)); lra.
Qed.

Lemma radiusAt_near_shoulder_end (s : RandomSource) (y : R) :
  Rabs (y - 0.7) < 0.1 -> Rabs (radiusAt s y - 0.3) <= 5 * Rabs (y - 0.7).
Proof.
  intros H. unfold radiusAt.
  destruct (Rlt_dec y 0.7) as [Hlt|Hge].
  - rewrite bottleRadius_shoulder.
    + simpl.
      replace (0.8 * (1 - (y - 0.6) / 0.1) + 0.3 * ((y - 0.6) / 0.1) - 0.3)
        with (- (5 * (y - 0.7))) by lra.
      rewrite Rabs_Ropp, Rabs_mult, (Rabs_right 5) by lra. lra.
    + unfold Rabs in H; destruct (Rcase_abs (y - 0.7)); lra.
  - rewrite bottleRadius_neck.
    + simpl. replace (0.3 - 0.3) with 0 by lra. rewrite Rabs_R0.
      pose proof (Rabs_pos (y - 0.7)); lra.
    + unfold Rabs in H; destruct (Rcase_abs (y - 0.7)); lra.
Qed.

(** A function within [5 |y - y0|] of [f y0] near [y0] is continuous there. *)
Lemma lipschitz_near_continuity (f : R -> R) (y0 : R) :
  (forall y, Rabs (y - y0) < 0.1 -> Rabs (f y - f y0) <= 5 * Rabs (y - y0)) ->
  continuity_pt f y0.
Proof.
  intros Hlip eps Heps.
  exists (Rmin 0.1 (eps / 5)). split.
  - apply Rmin_glb_lt; lra.
  - intros y [_ Hd]. simpl in Hd |- *. unfold Rdist in *.
    assert (H1 : Rabs (y - y0) < 0.1)
      by (eapply Rlt_le_trans; [exact Hd | apply Rmin_l]).
    assert (H2 : Rabs (y - y0) < eps / 5)
      by (eapply Rlt_le_trans; [exact Hd | apply Rmin_r]).
    specialize (Hlip y H1). lra.
Qed.

Lemma radiusAt_continuous_06 (s : RandomSource) : continuity_pt (radiusAt s) 0.6.
Proof.
  apply lipschitz_near_continuity. intros y Hy.
  replace (radiusAt s 0.6) with 0.8.
  - apply radiusAt_near_shoulder_start; exact Hy.
  - unfold radiusAt. rewrite bottleRadius_shoulder by lra. simpl. lra.
Qed.

Lemma radiusAt_continuous_07 (s : RandomSource) : continuity_pt (radiusAt s) 0.7.
Proof.
  apply lipschitz_near_continuity. intros y Hy.
  replace (radiusAt s 0.7) with 0.3.
  - apply radiusAt_near_shoulder_end; exact Hy.
  - unfold radiusAt. rewrite bottleRadius_neck by lra. reflexivity.
Qed.

(** Just below 0.95 the radius is 0.3, at 0.95 it is 0.35: a step of 0.05. *)
Lemma radiusAt_step_095 (s : RandomSource) : ~ continuity_pt (radiusAt s) 0.95.
Proof.
  intros Hc.
  destruct (Hc 0.05 ltac:(lra)) as [alp [Halp Hnear]].
  set (y := 0.95 - Rmin (alp / 2) 0.1).
  assert (Hm1 : 0 < Rmin (alp / 2) 0.1) by (apply Rmin_glb_lt; lra).
  assert (Hm2 : Rmin (alp / 2) 0.1 <= alp / 2) by apply Rmin_l.
  assert (Hm3 : Rmin (alp / 2) 0.1 <= 0.1) by apply Rmin_r.
  specialize (Hnear y). simpl in Hnear. unfold Rdist in Hnear.
  assert (Hy : radiusAt s y = 0.3)
    by (unfold radiusAt; rewrite bottleRadius_neck by (unfold y; lra); reflexivity).
  assert (H95 : radiusAt s 0.95 = 0.35)
    by (unfold radiusAt; rewrite bottleRadius_lip by lra; reflexivity).
  rewrite Hy, H95 in Hnear.
  assert (Hgoal : Rabs (0.3 - 0.35) < 0.05).
  { apply Hnear. split.
    - split; [exact I | unfold y; lra].
    - unfold y. replace (0.95 - Rmin (alp / 2) 0.1 - 0.95)
        with (- Rmin (alp / 2) 0.1) by lra.
      rewrite Rabs_Ropp, Rabs_right by lra. lra. }
  rewrite Rabs_left in Hgoal by lra. lra.
Qed.

End BottleProfile.

Section BottleClaims.
Import Js types geometry.

Lemma half_draws_unit : unit_draws half_draws.
Proof. intros n; simpl; lra. Qed.

Lemma high_draws_unit : unit_draws high_draws.
Proof. intros n; simpl; lra. Qed.

(** C1, as the spec states it, fails at the lip: the radius is not continuous
    at y = 0.95, where it steps from the neck radius 0.3 to the lip radius
    0.35. *)
Lemma bottle_radius_jumps_at_lip :
  unit_draws half_draws /\ ~ continuity_pt (radiusAt half_draws) 0.95.
Proof. split; [exact half_draws_unit | apply radiusAt_step_095]. Qed.

(** C1 (amended). The radius of generateBottle follows the piecewise table:
    0.8 for 0.05 <= y < 0.6, the linear interpolation from 0.8 to 0.3 for
    0.6 <= y < 0.7, 0.3 for 0.7 <= y < 0.95 and 0.35 for y >= 0.95; so y = 0.6
    gives 0.8, y = 0.7 gives 0.3 and y = 0.95 gives 0.35.  It is continuous
    across 0.6 and 0.7, and steps up by 0.05 from the neck to the lip at
    0.95. *)
Theorem bottle_radius_profile (s : RandomSource) :
  (forall y, 0.05 <= y < 0.6 -> bottleRadius y s = (0.8, s)) /\
  (forall y, 0.6 <= y < 0.7 ->
     bottleRadius y s = (0.8 + (0.3 - 0.8) * ((y - 0.6) / (0.7 - 0.6)), s)) /\
  (forall y, 0.7 <= y < 0.95 -> bottleRadius y s = (0.3, s)) /\
  (forall y, 0.95 <= y -> bottleRadius y s = (0.35, s)) /\
  radiusAt s 0.6 = 0.8 /\ radiusAt s 0.7 = 0.3 /\ radiusAt s 0.95 = 0.35 /\
  continuity_pt (radiusAt s) 0.6 /\
  continuity_pt (radiusAt s) 0.7 /\
  (forall y, 0.7 <= y < 0.95 -> radiusAt s 0.95 - radiusAt s y = 0.05).
Proof.
  assert (H06 : radiusAt s 0.6 = 0.8)
    by (unfold radiusAt; rewrite bottleRadius_shoulder by lra; simpl; lra).
  assert (H07 : radiusAt s 0.7 = 0.3)
    by (unfold radiusAt; rewrite bottleRadius_neck by lra; reflexivity).
  assert (H095 : radiusAt s 0.95 = 0.35)
    by (unfold radiusAt; rewrite bottleRadius_lip by lra; reflexivity).
  repeat split; auto.
  - intros y Hy; apply bottleRadius_body; exact Hy.
  - intros y Hy; rewrite bottleRadius_shoulder by exact Hy.
    f_equal; lra.
  - intros y Hy; apply bottleRadius_neck; exact Hy.
  - intros y Hy; apply bottleRadius_lip; exact Hy.
  - apply radiusAt_continuous_06.
  - apply radiusAt_continuous_07.
  - intros y Hy. rewrite H095. unfold radiusAt.
    rewrite bottleRadius_neck by exact Hy. simpl; lra.
Qed.

(** The profile never changes the draws of the source, only its cursor. *)
Lemma bottleRadius_draws (y : R) (s : RandomSource) :
  draws (snd (bottleRadius y s)) = draws s.
Proof. unfold bottleRadius. case_Rlt; reflexivity. Qed.

Lemma bottleRadius_keeps (y : R) (s : RandomSource) :
  unit_draws s -> unit_draws (snd (bottleRadius y s)).
Proof. intros H n. rewrite bottleRadius_draws. apply H. Qed.

Lemma bottle_point_keeps (s : RandomSource) :
  unit_draws s -> unit_draws (snd (bottle_point s)).
Proof.
  intros H. unfold bottle_point, bind at 1 2 3, Math_random.
  match goal with |- context [bottleRadius ?y ?s0] =>
    pose proof (bottleRadius_keeps y s0) as Hk;
    destruct (bottleRadius y s0) as [r s'] end.
  simpl in *. apply Hk. intros n; apply H.
Qed.

Lemma bottle_point_shape (s : RandomSource) :
  unit_draws s -> bottle_point_spec (fst (bottle_point s)).
Proof.
  intros H.
  exists (bottle_y (bottle_h (draws s (cursor s)))),
         (draws s (S (cursor s)) * 2 * PI),
         (mkRandomSource (draws s) (S (S (cursor s)))).
  pose proof (H (cursor s)) as H1. pose proof (H (S (cursor s))) as H2.
  pose proof PI_RGT_0 as Hpi.
  repeat split.
  - unfold bottle_y, bottle_h; lra.
  - unfold bottle_y, bottle_h; lra.
  - nra.
  - nra.
  - apply H.
  - apply H.
  - unfold bottle_point, bind at 1 2 3, Math_random, radiusAt. simpl.
    destruct (bottleRadius _ _) as [r s']; simpl.
    f_equal; lra.
Qed.

(** C8, as the spec states it, fails: with a first draw of 0.9 the
    normalized height is 1.08, so the emitted height 2.28 is not
    3.5 y - 1.5 for any y in [0,1]. *)
Lemma bottle_height_exceeds_one :
  unit_draws high_draws /\
  ~ Forall (fun p => exists yn, 0 <= yn <= 1 /\ y p = 3.5 * yn - 1.5)
           (fst (generateBottle 1 high_draws)).
Proof.
  split; [exact high_draws_unit|].
  unfold generateBottle, iterations. simpl.
  unfold bind at 1. unfold bottle_point, bind at 1 2 3, Math_random. simpl.
  destruct (bottleRadius _ _) as [r s']; simpl.
  intros HF. inversion HF as [|p l [yn [Hyn Hy]] _]; subst.
  simpl in Hy. unfold bottle_y, bottle_h in Hy. lra.
Qed.

(** C8 (amended). Every point produced by generateBottle is
    (r cos theta, 3.5 y - 1.5, r sin theta) for a normalized height y in
    [0, 1.2), the profile radius r at y and an angle theta in [0, 2 PI). *)
Theorem generateBottle_points (N : Z) (s : RandomSource) (Hs : unit_draws s) :
  Forall bottle_point_spec (fst (generateBottle N s)).
Proof.
  unfold generateBottle.
  apply (for_push_Forall unit_draws); auto.
  intros s' Hs'. split; [apply bottle_point_shape | apply bottle_point_keeps]; exact Hs'.
Qed.

End BottleClaims.

Section ShapeGeneratorRuns.
Import Js types geometry.

(** Three points from each generator, every draw being 0.5. *)
Lemma generators_return_count_points_witness :
  (0 <= 3)%Z /\
  Z.of_nat (length (fst (generateSphere 3 half_draws))) = 3%Z /\
  Z.of_nat (length (fst (generateCube 3 half_draws))) = 3%Z /\
  Z.of_nat (length (fst (generateBottle 3 half_draws))) = 3%Z /\
  Forall (fun p => norm p = 1.2) (fst (generateSphere 3 half_draws)).
Proof.
  assert (H3 : (0 <= 3)%Z) by lia.
  destruct (generators_return_count_points 3 H3 half_draws)
    as (Hs & Hc & Hb & _ & Hn).
  repeat split; assumption.
Defined.

(** One bottle point, every draw being 0.5: the height is 0.6, the start of
    the shoulder, where the radius is 0.8; the angle is PI. *)
Lemma generateBottle_points_witness :
  unit_draws half_draws /\
  Forall bottle_point_spec (fst (generateBottle 1 half_draws)) /\
  fst (generateBottle 1 half_draws) = [mkPoint3D (-0.8) 0.6 0].
Proof.
  split; [exact half_draws_unit|].
  split; [exact (generateBottle_points 1 half_draws half_draws_unit)|].
  unfold generateBottle, iterations. simpl.
  unfold bind at 1. unfold bottle_point, bind at 1 2 3, Math_random.
  cbn [half_draws draws cursor].
  assert (Hy : bottle_y (bottle_h 0.5) = 0.6) by (unfold bottle_y, bottle_h; lra).
  rewrite Hy. rewrite bottleRadius_shoulder by lra.
  unfold ret. cbn [fst snd app].
  replace (0.5 * 2 * PI) with PI by lra.
  rewrite cos_PI, sin_PI.
  f_equal. f_equal; lra.
Defined.

End ShapeGeneratorRuns.

(* ================================================================== *)
(** ** Properties of the gesture signal *)
(* ================================================================== *)

Section GestureSignal.
Import Js types HandController.

Lemma gt_true_iff (a b : R) : gt a b = true <-> a > b.
Proof.
  unfold gt. destruct (Rgt_dec a b); split; intros H;
    try reflexivity; try assumption; try discriminate; contradiction.
Qed.

Lemma rescale_range (avgDist : R) : 0 <= rescale avgDist <= 1.
Proof.
  unfold rescale, Math_max, Math_min. split.
  - apply Rmax_l.
  - apply Rmax_lub; [lra | apply Rmin_l].
Qed.

Lemma rescale_below (avgDist : R) : avgDist <= 0.15 -> rescale avgDist = 0.
Proof.
  intros H. unfold rescale, Math_max, Math_min.
  assert ((avgDist - 0.15) / (0.45 - 0.15) <= 0) by lra.
  rewrite Rmin_right by lra. rewrite Rmax_left by lra. reflexivity.
Qed.

Lemma rescale_above (avgDist : R) : 0.45 <= avgDist -> rescale avgDist = 1.
Proof.
  intros H. unfold rescale, Math_max, Math_min.
  assert (1 <= (avgDist - 0.15) / (0.45 - 0.15)) by lra.
  rewrite Rmin_left by lra. rewrite Rmax_right by lra. reflexivity.
Qed.

Lemma rescale_between (avgDist : R) :
  0.15 <= avgDist <= 0.45 -> rescale avgDist = (avgDist - 0.15) / (0.45 - 0.15).
Proof.
  intros H. unfold rescale, Math_max, Math_min.
  assert (0 <= (avgDist - 0.15) / (0.45 - 0.15) <= 1) by lra.
  rewrite Rmin_right by lra. rewrite Rmax_right by lra. reflexivity.
Qed.

(** The code's rescaling is the clamped linear map of [0.15, 0.45] onto
    [0, 1]. *)
Lemma rescale_clamped_eq (avgDist : R) :
  rescale avgDist = rescale_clamped 0.15 0.45 avgDist.
Proof. reflexivity. Qed.

(** The hand data of a detected hand: the five fingertips and the wrist are
    there, and the openness is the rescaled average distance. *)
Lemma detectedHandData_spec (hand : list Landmark) (data : HandData) :
  detectedHandData hand = Ok data ->
  exists wrist t4 t8 t12 t16 t20 : Landmark,
    nth_error hand 0 = Some wrist /\
    nth_error hand 4 = Some t4 /\ nth_error hand 8 = Some t8 /\
    nth_error hand 12 = Some t12 /\ nth_error hand 16 = Some t16 /\
    nth_error hand 20 = Some t20 /\
    openness data
    = rescale_clamped 0.15 0.45 (averageTipDistance wrist t4 t8 t12 t16 t20) /\
    isOpen data = gt (openness data) 0.5 /\
    detected data = true.
Proof.
  unfold detectedHandData, tips. cbn [forEach]. unfold addTipDistance.
  destruct (nth_error hand 4) as [t4|]; [|discriminate].
  destruct (nth_error hand 0) as [wrist|]; [|discriminate].
  destruct (nth_error hand 8) as [t8|]; [|discriminate].
  destruct (nth_error hand 12) as [t12|]; [|discriminate].
  destruct (nth_error hand 16) as [t16|]; [|discriminate].
  destruct (nth_error hand 20) as [t20|]; [|discriminate].
  intros H; inversion H; subst; clear H. cbn [openness isOpen detected].
  exists wrist, t4, t8, t12, t16, t20.
  repeat split; try reflexivity.
  rewrite rescale_clamped_eq. f_equal.
  unfold averageTipDistance, distance. lra.
Qed.

(** With the 21 landmarks of a hand the computation does not throw. *)
Lemma detectedHandData_total (hand : list Landmark) :
  (21 <= length hand)%nat -> exists data, detectedHandData hand = Ok data.
Proof.
  intros Hlen.
  assert (Hn : forall n, (n < 21)%nat -> exists p, nth_error hand n = Some p).
  { intros n Hn. destruct (nth_error hand n) as [p|] eqn:E; [eauto|].
    apply nth_error_None in E. lia. }
  unfold detectedHandData, tips. cbn [forEach]. unfold addTipDistance.
  destruct (Hn 0%nat ltac:(lia)) as [w ->].
  destruct (Hn 4%nat ltac:(lia)) as [t4 ->].
  destruct (Hn 8%nat ltac:(lia)) as [t8 ->].
  destruct (Hn 12%nat ltac:(lia)) as [t12 ->].
  destruct (Hn 16%nat ltac:(lia)) as [t16 ->].
  destruct (Hn 20%nat ltac:(lia)) as [t20 ->].
  eexists; reflexivity.
Qed.

Lemma detectedHandData_invariant (hand : list Landmark) (data : HandData) :
  detectedHandData hand = Ok data ->
  0 <= openness data <= 1 /\ (isOpen data = true <-> openness data > 0.5).
Proof.
  unfold detectedHandData.
  destruct (forEach _ _ _) as [total|e]; [|discriminate].
  intros H; inversion H; subst; clear H. cbn [openness isOpen].
  split; [apply rescale_range | apply gt_true_iff].
Qed.

(** C2. Every GestureState handed to onHandUpdate by predictWebcam is
    {detected:false, isOpen:false, openness:0} when no hand is detected;
    otherwise its openness is the average Euclidean distance (depth included)
    from the wrist to the five fingertips, rescaled linearly from
    [0.15, 0.45] to [0, 1] and clamped.  In both cases openness lies in
    [0, 1] and isOpen holds if and only if openness > 0.5. *)
Theorem gesture_state_contract
        (refs : Refs) (nowInMs : R) (effects : Effects) (data : HandData)
        (Hrun : snd (predictWebcam refs nowInMs) = Ok effects)
        (Hemit : In data (onHandUpdate effects)) :
  exists (landmarker : HandLandmarker) (video : Video),
    landmarkerRef refs = Some landmarker /\ videoRef refs = Some video /\
    match landmarks (detectForVideo landmarker video nowInMs) with
    | Some (hand :: _) =>
        exists wrist t4 t8 t12 t16 t20 : Landmark,
          nth_error hand 0 = Some wrist /\
          nth_error hand 4 = Some t4 /\ nth_error hand 8 = Some t8 /\
          nth_error hand 12 = Some t12 /\ nth_error hand 16 = Some t16 /\
          nth_error hand 20 = Some t20 /\
          openness data
          = rescale_clamped 0.15 0.45
              (averageTipDistance wrist t4 t8 t12 t16 t20) /\
          detected data = true
    | _ => data = {| detected := false; isOpen := false; openness := 0 |}
    end /\
    0 <= openness data <= 1 /\
    (isOpen data = true <-> openness data > 0.5).
Proof.
  unfold predictWebcam in Hrun.
  destruct (landmarkerRef refs) as [landmarker|];
    [|simpl in Hrun; inversion Hrun; subst; simpl in Hemit; contradiction].
  destruct (videoRef refs) as [video|];
    [|simpl in Hrun; inversion Hrun; subst; simpl in Hemit; contradiction].
  exists landmarker, video. split; [reflexivity|]. split; [reflexivity|].
  destruct (Req_dec_T (currentTime video) (lastVideoTimeRef refs));
    [simpl in Hrun; inversion Hrun; subst; simpl in Hemit; contradiction|].
  unfold handUpdate in Hrun.
  assert (Hnone : forall effects' : Effects,
             Ok {| onHandUpdate := [ {| detected := false; isOpen := false;
                                        openness := 0 |} ];
                   requestAnimationFrame := true |} = Ok effects' ->
             In data (onHandUpdate effects') ->
             data = {| detected := false; isOpen := false; openness := 0 |} /\
             0 <= openness data <= 1 /\
             (isOpen data = true <-> openness data > 0.5)).
  { intros effects' H Hin. inversion H; subst; clear H.
    destruct Hin as [<-|[]]. cbn [openness isOpen].
    split; [reflexivity|]. split; [lra|].
    split; [discriminate | lra]. }
  destruct (landmarks (detectForVideo landmarker video nowInMs)) as [[|hand hands]|].
  - simpl in Hrun. apply (Hnone effects); assumption.
  - destruct (detectedHandData hand) as [data'|e] eqn:Ehand;
      simpl in Hrun; [|discriminate].
    inversion Hrun; subst; clear Hrun. destruct Hemit as [<-|[]].
    destruct (detectedHandData_spec _ _ Ehand)
      as (wrist & t4 & t8 & t12 & t16 & t20 & H0 & H4 & H8 & H12 & H16 & H20 & Ho & _ & Hd).
    destruct (detectedHandData_invariant _ _ Ehand) as [Hr Hi].
    split; [|split; assumption].
    exists wrist, t4, t8, t12, t16, t20. repeat split; assumption.
  - simpl in Hrun. apply (Hnone effects); assumption.
Qed.

End GestureSignal.

Section GestureSignalRun.
Import Js types HandController HandFixture.

Lemma open_hand_run :
  exists data : HandData,
    snd (predictWebcam open_hand_refs 0)
    = Ok {| onHandUpdate := [data]; requestAnimationFrame := true |}.
Proof.
  destruct (detectedHandData_total open_hand) as [data Hdata];
    [unfold open_hand; simpl; lia|].
  exists data. unfold predictWebcam, open_hand_refs.
  cbn [landmarkerRef videoRef lastVideoTimeRef currentTime detectForVideo].
  destruct (Req_dec_T 1 (-1)) as [Heq|_]; [lra|].
  unfold handUpdate. cbn [landmarks]. rewrite Hdata. reflexivity.
Defined.

Lemma open_hand_distance :
  distance (mkPoint3D 0.3 0.4 0) (mkPoint3D 0 0 0) = 0.5.
Proof.
  unfold distance; cbn [x y z].
  replace ((0.3 - 0) * (0.3 - 0) + (0.4 - 0) * (0.4 - 0) + (0 - 0) * (0 - 0))
    with (0.5 * 0.5) by lra.
  apply sqrt_square; lra.
Qed.

(** The contract on the concrete run: the hand is reported as detected,
    fully open. *)
Lemma gesture_state_contract_witness :
  exists (effects : Effects) (data : HandData),
    snd (predictWebcam open_hand_refs 0) = Ok effects /\
    In data (onHandUpdate effects) /\
    detected data = true /\ openness data = 1 /\ isOpen data = true.
Proof.
  destruct open_hand_run as [data Hrun].
  exists {| onHandUpdate := [data]; requestAnimationFrame := true |}, data.
  split; [exact Hrun|]. split; [left; reflexivity|].
  destruct (gesture_state_contract open_hand_refs 0 _ data Hrun (or_introl eq_refl))
    as (landmarker & video & Hl & Hv & Hhand & Hrange & Hopen).
  unfold open_hand_refs in Hl, Hv. cbn [landmarkerRef videoRef] in Hl, Hv.
  inversion Hl; subst landmarker. cbn [detectForVideo landmarks] in Hhand.
  destruct Hhand
    as (wrist & t4 & t8 & t12 & t16 & t20 & H0 & H4 & H8 & H12 & H16 & H20 & Ho & Hd).
  unfold open_hand in H0, H4, H8, H12, H16, H20.
  cbn [nth_error repeat] in H0, H4, H8, H12, H16, H20.
  inversion H0; inversion H4; inversion H8; inversion H12; inversion H16;
    inversion H20; subst.
  assert (Hone : openness data = 1).
  { rewrite Ho. unfold averageTipDistance. rewrite open_hand_distance.
    rewrite <- rescale_clamped_eq. apply rescale_above. lra. }
  split; [exact Hd|]. split; [exact Hone|].
  apply Hopen. rewrite Hone. lra.
Defined.

End GestureSignalRun.

(* ================================================================== *)
(** ** Properties of the particle update *)
(* ================================================================== *)

Section TypedArray.
Import Js.

Lemma typed_set_length (l : list R) :
  forall (i : nat) (v : R), length (typed_set l i v) = length l.
Proof.
  induction l as [|a l IH]; intros [|i] v; simpl; auto.
Qed.

Lemma typed_get_set_same (l : list R) :
  forall (i : nat) (v : R),
    (i < length l)%nat -> typed_get (typed_set l i v) i = v.
Proof.
  unfold typed_get.
  induction l as [|a l IH]; intros [|i] v Hi; simpl in *; try lia.
  - reflexivity.
  - apply IH; lia.
Qed.

Lemma typed_get_set_other (l : list R) :
  forall (i j : nat) (v : R),
    i <> j -> typed_get (typed_set l i v) j = typed_get l j.
Proof.
  unfold typed_get.
  induction l as [|a l IH]; intros [|i] [|j] v Hij; simpl; try reflexivity; try lia.
  apply IH; lia.
Qed.

End TypedArray.

Section ParticleTarget.
Import Js types ParticleScene.

Lemma targetIndex_in_bounds (targetPoints : list Point3D) (i : nat) :
  (0 < length targetPoints)%nat ->
  targetIndex targetPoints i = (i mod length targetPoints)%nat /\
  (targetIndex targetPoints i < length targetPoints)%nat.
Proof.
  intros Hlen. unfold targetIndex.
  destruct (Nat.eqb_spec (length targetPoints) 0) as [E|_]; [lia|].
  split; [reflexivity | apply Nat.mod_upper_bound; lia].
Qed.

Lemma rawTarget_nonempty (targetPoints : list Point3D) (i : nat) :
  (0 < length targetPoints)%nat ->
  rawTarget targetPoints i = nth_error targetPoints (i mod length targetPoints) /\
  exists p, rawTarget targetPoints i = Some p.
Proof.
  intros Hlen. unfold rawTarget.
  destruct (Nat.ltb_spec 0 (length targetPoints)) as [_|H]; [|lia].
  destruct (targetIndex_in_bounds targetPoints i Hlen) as [-> Hlt].
  split; [reflexivity|].
  destruct (nth_error targetPoints (i mod length targetPoints)) eqn:E; [eauto|].
  apply nth_error_None in E.
  pose proof (Nat.mod_upper_bound i (length targetPoints)). lia.
Qed.

Lemma rawTarget_empty (targetPoints : list Point3D) (i : nat) :
  length targetPoints = 0%nat ->
  rawTarget targetPoints i = Some {| x := 0; y := 0; z := 0 |}.
Proof. intros Hlen. unfold rawTarget. rewrite Hlen. reflexivity. Qed.

(** The read of the raw target is never past the end of the array. *)
Lemma rawTarget_defined (targetPoints : list Point3D) (i : nat) :
  exists p, rawTarget targetPoints i = Some p.
Proof.
  destruct (Nat.eq_dec (length targetPoints) 0) as [E|E].
  - rewrite rawTarget_empty by exact E. eauto.
  - apply rawTarget_nonempty; lia.
Qed.

Lemma jitteredTarget_draws (raw : Point3D) (s : RandomSource) :
  jitteredTarget raw s
  = ({| x := x raw + (draws s (cursor s) - 0.5) * 0.02;
        y := y raw + (draws s (S (cursor s)) - 0.5) * 0.02;
        z := z raw + (draws s (S (S (cursor s))) - 0.5) * 0.02 |},
     mkRandomSource (draws s) (S (S (S (cursor s))))).
Proof. reflexivity. Qed.

Lemma jitter_bound (u : R) : 0 <= u < 1 -> Rabs ((u - 0.5) * 0.02) <= 0.01.
Proof. intros H. apply Rabs_le. lra. Qed.

(** C5. For particle i the raw target is targetPoints[i mod N_target] when
    the target point set has N_target > 0 points, the index being in
    bounds, and the origin when the set is empty; the target adds to each
    axis its own draw of jitter, at most 0.01 in absolute value. *)
Theorem particle_target_assignment
        (targetPoints : list Point3D) (i : nat) (s : RandomSource)
        (Hs : unit_draws s) :
  ((0 < length targetPoints)%nat ->
     (i mod length targetPoints < length targetPoints)%nat /\
     rawTarget targetPoints i = nth_error targetPoints (i mod length targetPoints)) /\
  (length targetPoints = 0%nat ->
     rawTarget targetPoints i = Some {| x := 0; y := 0; z := 0 |}) /\
  exists raw : Point3D,
    rawTarget targetPoints i = Some raw /\
    let target := fst (jitteredTarget raw s) in
    x target = x raw + (draws s (cursor s) - 0.5) * 0.02 /\
    y target = y raw + (draws s (cursor s + 1) - 0.5) * 0.02 /\
    z target = z raw + (draws s (cursor s + 2) - 0.5) * 0.02 /\
    Rabs (x target - x raw) <= 0.01 /\
    Rabs (y target - y raw) <= 0.01 /\
    Rabs (z target - z raw) <= 0.01.
Proof.
  split; [|split].
  - intros Hlen. split.
    + apply Nat.mod_upper_bound; lia.
    + apply rawTarget_nonempty; exact Hlen.
  - apply rawTarget_empty.
  - destruct (rawTarget_defined targetPoints i) as [raw Hraw].
    exists raw. split; [exact Hraw|].
    rewrite jitteredTarget_draws. cbn [fst x y z].
    replace (cursor s + 1)%nat with (S (cursor s)) by lia.
    replace (cursor s + 2)%nat with (S (S (cursor s))) by lia.
    repeat split; try reflexivity.
    + replace (x raw + (draws s (cursor s) - 0.5) * 0.02 - x raw)
        with ((draws s (cursor s) - 0.5) * 0.02) by lra.
      apply jitter_bound, Hs.
    + replace (y raw + (draws s (S (cursor s)) - 0.5) * 0.02 - y raw)
        with ((draws s (S (cursor s)) - 0.5) * 0.02) by lra.
      apply jitter_bound, Hs.
    + replace (z raw + (draws s (S (S (cursor s))) - 0.5) * 0.02 - z raw)
        with ((draws s (S (S (cursor s))) - 0.5) * 0.02) by lra.
      apply jitter_bound, Hs.
Qed.

(** Particle 5 of a frame over three target points, every draw being 0.5:
    the raw target is the point of index 5 mod 3 = 2, met without jitter. *)
Lemma particle_target_assignment_witness :
  rawTarget [mkPoint3D 1 0 0; mkPoint3D 0 1 0; mkPoint3D 0 0 1] 5
  = Some (mkPoint3D 0 0 1) /\
  fst (jitteredTarget (mkPoint3D 0 0 1) half_draws) = mkPoint3D 0 0 1.
Proof.
  pose proof (particle_target_assignment
                [mkPoint3D 1 0 0; mkPoint3D 0 1 0; mkPoint3D 0 0 1] 5
                half_draws half_draws_unit) as [Hin _].
  destruct (Hin ltac:(simpl; lia)) as [_ Hraw].
  split.
  - rewrite Hraw. reflexivity.
  - rewrite jitteredTarget_draws. cbn [fst half_draws draws cursor x y z].
    f_equal; lra.
Defined.

End ParticleTarget.

Section InteractionIntensity.
Import Js types.

(** C6. With no hand detected the particle simulation uses intensity 0 and
    the audio mapper uses intensity 0.1; with a hand detected both use the
    raw openness.  The two defaults differ. *)
Theorem no_hand_defaults_differ
        (targetPoints : list Point3D) (particleColor : string)
        (isAudioEnabled : bool) (handData : HandData) :
  let visual := App.particleSceneProps targetPoints particleColor handData in
  let audio := App.audioControllerProps isAudioEnabled handData in
  (detected handData = false ->
     ParticleScene.activeOpenness visual = 0 /\
     AudioController.intensity audio = 0.1) /\
  (detected handData = true ->
     ParticleScene.activeOpenness visual = openness handData /\
     AudioController.intensity audio = openness handData) /\
  (detected handData = false ->
     ParticleScene.activeOpenness visual <> AudioController.intensity audio).
Proof.
  cbv zeta.
  unfold ParticleScene.activeOpenness, AudioController.intensity,
    App.particleSceneProps, App.audioControllerProps.
  cbn [ParticleScene.handDetected ParticleScene.handOpenness
       AudioController.handDetected AudioController.handOpenness].
  split; [|split]; intros H; rewrite H; [split; reflexivity .. | lra].
Qed.

End InteractionIntensity.

Section ExplosionDirection.
Import Js types ParticleScene.

Lemma len_lower_bound (tx ty tz : R) : 0.001 <= len tx ty tz.
Proof.
  unfold len. pose proof (sqrt_pos (tx * tx + ty * ty + tz * tz)). lra.
Qed.

Lemma len_origin : len 0 0 0 = 0.001.
Proof.
  unfold len. replace (0 * 0 + 0 * 0 + 0 * 0) with 0 by lra.
  rewrite sqrt_0. lra.
Qed.

End ExplosionDirection.

Section ParticleFrame.
Import Js types ParticleScene.

Lemma advance_0 (s : RandomSource) : advance s 0 = s.
Proof. destruct s; reflexivity. Qed.

Lemma advance_advance (s : RandomSource) (a b : nat) :
  advance (advance s a) b = advance s (a + b).
Proof. unfold advance; simpl. f_equal. lia. Qed.

Lemma lerp_length (l : list R) (i3 : nat) (t : R * R * R) :
  length (lerp l i3 t) = length l.
Proof.
  destruct t as [[tx ty] tz]. unfold lerp.
  rewrite !typed_set_length. reflexivity.
Qed.

Lemma lerp_get_outside (l : list R) (i3 j : nat) (t : R * R * R) :
  (j < i3 \/ i3 + 3 <= j)%nat -> typed_get (lerp l i3 t) j = typed_get l j.
Proof.
  intros Hj. destruct t as [[tx ty] tz]. unfold lerp.
  rewrite !typed_get_set_other by lia. reflexivity.
Qed.

Lemma lerp_get_inside (l : list R) (i3 k : nat) (t : R * R * R) :
  (i3 + 2 < length l)%nat -> (k < 3)%nat ->
  typed_get (lerp l i3 t) (i3 + k) = damp (typed_get l (i3 + k)) (coordinate k t).
Proof.
  intros Hlen Hk. destruct t as [[tx ty] tz]. unfold lerp.
  destruct k as [|[|[|k]]]; [| | |lia]; cbn [coordinate].
  - rewrite Nat.add_0_r.
    rewrite !(typed_get_set_other _ _ i3) by lia.
    apply typed_get_set_same; lia.
  - rewrite (typed_get_set_other _ (i3 + 2) (i3 + 1)) by lia.
    rewrite typed_get_set_same by (rewrite typed_set_length; lia).
    rewrite typed_get_set_other by lia. reflexivity.
  - rewrite typed_get_set_same by (rewrite !typed_set_length; lia).
    rewrite !(typed_get_set_other _ _ (i3 + 2)) by lia. reflexivity.
Qed.

(** One iteration of the loop never throws; it updates the positions by
    [lerp] toward the particle's target and draws three numbers. *)
Lemma particle_run (props : ParticleSceneProps) (time : R) (i : nat)
      (positions : list R) (s : RandomSource) :
  particle props time i positions s
  = (Ok (lerp positions (i * 3) (particleTarget props time i s)), advance s 3).
Proof.
  unfold particle, particleTarget.
  destruct (rawTarget_defined (targetPoints props) i) as [raw ->].
  reflexivity.
Qed.

Lemma for_particles_spec (props : ParticleSceneProps) (time : R) :
  forall (n i0 : nat) (positions : list R) (s : RandomSource),
  exists positions' : list R,
    for_particles n i0 (particle props time) positions s
    = (Ok positions', advance s (3 * n)) /\
    length positions' = length positions /\
    (forall j : nat, (j < i0 * 3 \/ (i0 + n) * 3 <= j)%nat ->
       typed_get positions' j = typed_get positions j) /\
    (forall i k : nat,
       (i0 <= i < i0 + n)%nat -> (k < 3)%nat ->
       (i * 3 + 2 < length positions)%nat ->
       typed_get positions' (i * 3 + k)
       = damp (typed_get positions (i * 3 + k))
              (coordinate k (particleTarget props time i
                                            (advance s (3 * (i - i0)))))).
Proof.
  induction n as [|n IH]; intros i0 positions s.
  - exists positions. cbn [for_particles]. unfold ret.
    rewrite Nat.mul_0_r, advance_0.
    repeat split; auto. intros i k Hi; lia.
  - cbn [for_particles]. unfold bind at 1. rewrite particle_run.
    set (p1 := lerp positions (i0 * 3) (particleTarget props time i0 s)).
    destruct (IH (S i0) p1 (advance s 3)) as (positions' & Hrun & Hlen & Hout & Hin).
    exists positions'.
    assert (Hp1 : length p1 = length positions) by apply lerp_length.
    split; [|split; [|split]].
    + rewrite Hrun. rewrite advance_advance.
      f_equal. f_equal. lia.
    + congruence.
    + intros j Hj. rewrite Hout by lia.
      apply lerp_get_outside; lia.
    + intros i k Hi Hk Hlt.
      destruct (Nat.eq_dec i i0) as [->|Hne].
      * rewrite Hout by lia. rewrite Nat.sub_diag, Nat.mul_0_r, advance_0.
        apply lerp_get_inside; assumption.
      * rewrite Hin by lia.
        unfold p1 at 1. rewrite lerp_get_outside by lia.
        rewrite advance_advance.
        replace (3 + 3 * (i - S i0))%nat with (3 * (i - i0))%nat by lia.
        reflexivity.
Qed.

Lemma currentPositions_length (s : RandomSource) :
  length (fst (currentPositions s)) = (PARTICLE_COUNT * 3)%nat.
Proof. unfold currentPositions. rewrite for_push_length. reflexivity. Qed.

(** The frame callback never throws. *)
Lemma useFrame_total (props : ParticleSceneProps) (meshRef : option Mesh)
      (time : R) (s : RandomSource) :
  exists meshRef' : option Mesh,
    fst (useFrame props meshRef time s) = Ok meshRef'.
Proof.
  destruct meshRef as [mesh|]; [|exists None; reflexivity].
  unfold useFrame, bind.
  destruct (for_particles_spec props time PARTICLE_COUNT 0 (positions mesh) s)
    as (positions' & -> & _).
  eexists; reflexivity.
Qed.

(** C7. In a frame, each coordinate of each particle moves by
    position += (target - position) * 0.06 toward the target computed for
    it; a coordinate that already equals its computed target is left
    unchanged. *)
Theorem particle_damping_step
        (props : ParticleSceneProps) (mesh : Mesh) (time : R)
        (s : RandomSource) (i k : nat)
        (Hlen : length (positions mesh) = (PARTICLE_COUNT * 3)%nat)
        (Hi : (i < PARTICLE_COUNT)%nat) (Hk : (k < 3)%nat) :
  exists mesh' : Mesh,
    fst (useFrame props (Some mesh) time s) = Ok (Some mesh') /\
    length (positions mesh') = (PARTICLE_COUNT * 3)%nat /\
    (typed_get (positions mesh') (i * 3 + k)
     = typed_get (positions mesh) (i * 3 + k)
       + (coordinate k (particleTarget props time i (advance s (3 * i)))
          - typed_get (positions mesh) (i * 3 + k)) * 0.06) /\
    (typed_get (positions mesh) (i * 3 + k)
     = coordinate k (particleTarget props time i (advance s (3 * i))) ->
     typed_get (positions mesh') (i * 3 + k)
     = typed_get (positions mesh) (i * 3 + k)).
Proof.
  unfold useFrame, bind.
  destruct (for_particles_spec props time PARTICLE_COUNT 0 (positions mesh) s)
    as (positions' & -> & Hlen' & _ & Hin).
  eexists. split; [reflexivity|]. cbn [positions].
  assert (Hstep : typed_get positions' (i * 3 + k)
                  = damp (typed_get (ParticleScene.positions mesh) (i * 3 + k))
                         (coordinate k (particleTarget props time i
                                                       (advance s (3 * i))))).
  { rewrite Hin by lia. rewrite Nat.sub_0_r. reflexivity. }
  split; [congruence|]. rewrite Hstep. unfold damp, DAMPING_FACTOR.
  split; [reflexivity|]. intros ->. lra.
Qed.

Lemma still_mesh_length :
  length (positions still_mesh) = (PARTICLE_COUNT * 3)%nat.
Proof. apply repeat_length. Qed.

Lemma PARTICLE_COUNT_positive : (0 < PARTICLE_COUNT)%nat.
Proof. unfold PARTICLE_COUNT. lia. Qed.

End ParticleFrame.

Section ParticleFrameClaims.
Import Js types ParticleScene.

(** With no hand, no target points and every draw 0.5 the target of
    particle 0 is the origin. *)
Lemma idle_target_origin (time : R) :
  particleTarget idle_props time 0 (advance half_draws (3 * 0)) = (0, 0, 0).
Proof.
  unfold particleTarget, idle_props, instantTarget, activeOpenness, breathe.
  cbn [targetPoints handDetected handOpenness rawTarget length Nat.ltb Nat.leb].
  rewrite jitteredTarget_draws.
  cbn [fst x y z advance half_draws draws cursor].
  unfold Rdiv.
  f_equal; [f_equal|]; ring.
Qed.

(** The step on a concrete frame: particle 0 rests at the origin, which is
    its target, and stays there. *)
Lemma particle_damping_step_witness :
  exists mesh' : Mesh,
    fst (useFrame idle_props (Some still_mesh) 0 half_draws) = Ok (Some mesh') /\
    typed_get (positions mesh') 0 = 0.
Proof.
  destruct (particle_damping_step idle_props still_mesh 0 half_draws 0 0
              still_mesh_length PARTICLE_COUNT_positive (Nat.lt_0_succ 2))
    as (mesh' & Hrun & _ & _ & Hfix).
  exists mesh'. split; [exact Hrun|].
  change (0 * 3 + 0)%nat with 0%nat in Hfix.
  assert (Hstill : typed_get (positions still_mesh) 0 = 0)
    by (unfold typed_get, still_mesh; cbn [positions]; apply nth_repeat).
  rewrite Hfix; [exact Hstill|].
  rewrite Hstill, idle_target_origin. reflexivity.
Defined.

(** C10. The length that normalizes the explosion direction,
    sqrt(tx^2 + ty^2 + tz^2) + 0.001, is strictly positive for every scaled
    target, also at the origin where it is 0.001, so the division by it is
    defined; and the frame update returns for every input. *)
Theorem explosion_direction_defined
        (props : ParticleSceneProps) (meshRef : option Mesh) (time : R)
        (s : RandomSource) (tx ty tz : R) :
  len tx ty tz > 0 /\
  len tx ty tz <> 0 /\
  len 0 0 0 = 0.001 /\
  0 / len 0 0 0 = 0 /\
  exists meshRef' : option Mesh,
    fst (useFrame props meshRef time s) = Ok meshRef'.
Proof.
  pose proof (len_lower_bound tx ty tz) as Hlen.
  split; [lra|]. split; [lra|]. split; [apply len_origin|].
  split; [unfold Rdiv; apply Rmult_0_l | apply useFrame_total].
Qed.

End ParticleFrameClaims.

(* ================================================================== *)
(** ** Properties of the audio parameter mapping *)
(* ================================================================== *)

Section AudioMapping.
Import Js AudioController.

Lemma Int_part_2 : Int_part 2 = 2%Z.
Proof. symmetry. apply Int_part_spec. lra. Qed.

(** [Math.pow(b, 2)] is the square, for every base. *)
Lemma Math_pow_2 (b : R) : Math_pow b 2 = b * b.
Proof.
  unfold Math_pow. rewrite Int_part_2.
  destruct (Req_dec_T 2 2) as [_|H]; [|contradiction H; reflexivity].
  simpl. ring.
Qed.

Lemma targetFreq_eq (i : R) : targetFreq i = 150 + i * i * (6000 - 150).
Proof. unfold targetFreq. rewrite Math_pow_2. reflexivity. Qed.

Lemma targetVol_eq (i : R) : targetVol i = 0.3 + i * (0.6 - 0.3).
Proof. reflexivity. Qed.

(** The exponential approach of [setTargetAtTime] settles on its target. *)
Lemma approach_settles (v0 target startTime timeConstant : R) :
  0 < timeConstant ->
  forall eps : R, 0 < eps ->
    exists T : R, forall t : R, T <= t ->
      Rabs (approach v0 target startTime timeConstant t - target) < eps.
Proof.
  intros Htau eps Heps.
  set (d := Rabs (v0 - target)).
  assert (Hd : 0 <= d) by apply Rabs_pos.
  exists (startTime + timeConstant * (d / eps + 1)).
  intros t Ht. unfold approach.
  replace (target + (v0 - target) * exp (- ((t - startTime) / timeConstant)) - target)
    with ((v0 - target) * exp (- ((t - startTime) / timeConstant))) by ring.
  rewrite Rabs_mult. fold d.
  set (u := (t - startTime) / timeConstant).
  assert (Hu : d / eps + 1 <= u).
  { unfold u. apply (Rmult_le_reg_r timeConstant); [exact Htau|].
    unfold Rdiv at 2. rewrite Rmult_assoc, Rinv_l by lra. lra. }
  assert (Hde : 0 <= d / eps)
    by (unfold Rdiv; apply Rmult_le_pos; [lra | left; apply Rinv_0_lt_compat; lra]).
  assert (Hexp : 1 + u < exp u) by (apply exp_ineq1; lra).
  rewrite exp_Ropp, Rabs_right by (left; apply Rinv_0_lt_compat, exp_pos).
  apply (Rmult_lt_reg_r (exp u)); [apply exp_pos|].
  rewrite Rmult_assoc, Rinv_l by (apply Rgt_not_eq, exp_pos).
  rewrite Rmult_1_r.
  assert (Hd' : d = d / eps * eps) by (field; lra).
  assert (d / eps * eps < exp u * eps) by (apply Rmult_lt_compat_r; lra).
  lra.
Qed.

(** C3. For every intensity the audio mapper targets the filter cutoff
    150 + intensity^2 * (6000 - 150) Hz and the master gain
    0.3 + intensity * (0.6 - 0.3): 150 Hz and 0.3 at intensity 0, 6000 Hz and
    0.6 at intensity 1.  Both are handed to setTargetAtTime with time
    constant 0.1, whose exponential approach settles on them. *)
Theorem audio_targets (props : AudioControllerProps) (ctx : AudioContext)
        (filterNode : BiquadFilterNode) (masterGain : GainNode) :
  let i := intensity props in
  let refs := {| audioCtxRef := Some ctx;
                 masterGainRef := Some masterGain;
                 filterNodeRef := Some filterNode |} in
  (forall intensity : R,
     targetFreq intensity = 150 + intensity ^ 2 * (6000 - 150) /\
     targetVol intensity = 0.3 + intensity * (0.6 - 0.3)) /\
  (targetFreq 0 = 150 /\ targetVol 0 = 0.3) /\
  (targetFreq 1 = 6000 /\ targetVol 1 = 0.6) /\
  filterNodeRef (modulate props refs)
  = Some {| frequency :=
              {| value := value (frequency filterNode);
                 automation := automation (frequency filterNode)
                               ++ [(150 + i ^ 2 * (6000 - 150), currentTime ctx, 0.1)] |} |} /\
  masterGainRef (modulate props refs)
  = Some {| gain :=
              {| value := value (gain masterGain);
                 automation := automation (gain masterGain)
                               ++ [(0.3 + i * (0.6 - 0.3), currentTime ctx, 0.1)] |} |} /\
  (forall v0 eps : R, 0 < eps ->
     exists T : R, forall t : R, T <= t ->
       Rabs (approach v0 (targetFreq i) (currentTime ctx) 0.1 t - targetFreq i) < eps /\
       Rabs (approach v0 (targetVol i) (currentTime ctx) 0.1 t - targetVol i) < eps).
Proof.
  intros i refs.
  assert (Hf : forall j, targetFreq j = 150 + j ^ 2 * (6000 - 150))
    by (intros j; rewrite targetFreq_eq; simpl; ring).
  split; [intros j; split; [apply Hf | apply targetVol_eq]|].
  split; [split; [rewrite targetFreq_eq; lra | rewrite targetVol_eq; lra]|].
  split; [split; [rewrite targetFreq_eq; lra | rewrite targetVol_eq; lra]|].
  split; [|split].
  - unfold modulate, refs, setTargetAtTime.
    cbn [audioCtxRef filterNodeRef masterGainRef]. fold i. rewrite Hf. reflexivity.
  - unfold modulate, refs, setTargetAtTime.
    cbn [audioCtxRef filterNodeRef masterGainRef]. fold i.
    rewrite targetVol_eq. reflexivity.
  - intros v0 eps Heps.
    destruct (approach_settles v0 (targetFreq i) (currentTime ctx) 0.1
                ltac:(lra) eps Heps) as [T1 H1].
    destruct (approach_settles v0 (targetVol i) (currentTime ctx) 0.1
                ltac:(lra) eps Heps) as [T2 H2].
    exists (Rmax T1 T2). intros t Ht. split.
    + apply H1. pose proof (Rmax_l T1 T2). lra.
    + apply H2. pose proof (Rmax_r T1 T2). lra.
Qed.

End AudioMapping.

(* ================================================================== *)
(** ** Properties of the remote shape service *)
(* ================================================================== *)

Section ShapeService.
Import Js geminiService.

Lemma readPoints_cases (emptyMessage : string) (response : Response) :
  match response with
  | Rejects e => readPoints emptyMessage response = Throw e
  | Resolves NoText => readPoints emptyMessage response = Throw (Error emptyMessage)
  | Resolves NotJson => readPoints emptyMessage response = Throw SyntaxError
  | Resolves (Parses JNull) => readPoints emptyMessage response = Throw TypeError
  | Resolves (Parses parsed) =>
      exists v, points parsed = Ok v /\
                readPoints emptyMessage response = Ok (or_empty v)
  end.
Proof.
  destruct response as [e|[| |parsed]]; try reflexivity.
  destruct parsed; simpl; try reflexivity; eexists; split; reflexivity.
Qed.

(** A returned value comes from a response that parsed. *)
Lemma readPoints_Ok (emptyMessage : string) (response : Response) (v : Json) :
  readPoints emptyMessage response = Ok v ->
  exists parsed w, response = Resolves (Parses parsed) /\
                   points parsed = Ok w /\ v = or_empty w.
Proof.
  destruct response as [e|[| |parsed]]; simpl; try discriminate.
  destruct (points parsed) as [w|e] eqn:E; [|discriminate].
  intros H; inversion H; subst. exists parsed, w. auto.
Qed.

(** The error of a failed call is the error of the absent credential only
    if the collaborator itself rejects with it. *)
Lemma readPoints_Throw (emptyMessage missing : string) (response : Response) :
  emptyMessage <> missing ->
  readPoints emptyMessage response = Throw (Error missing) ->
  response = Rejects (Error missing).
Proof.
  intros Hmsg.
  destruct response as [e|[| |parsed]]; simpl.
  - intros H; inversion H; reflexivity.
  - intros H; inversion H; contradiction.
  - discriminate.
  - destruct (points parsed) as [w|e] eqn:E; [discriminate|].
    destruct parsed; simpl in E; inversion E; subst; discriminate.
Qed.

Lemma readPoints_surface (emptyMessage missing : string) (response : Response) :
  emptyMessage <> missing ->
  call_failures_surface (Error missing) emptyMessage response
                        (readPoints emptyMessage response).
Proof.
  intros Hmsg. unfold call_failures_surface.
  split; [intros e ->; reflexivity|].
  split; [intros ->; reflexivity|].
  split; [intros ->; reflexivity|].
  split; [apply readPoints_Throw; exact Hmsg | apply readPoints_Ok].
Qed.

Lemma Rev2_absent (process : Process) (generateContent : Request -> Response)
      (description : string) (count : option Z) :
  credential_absent process ->
  Rev2.generateShapePoints process generateContent description count
  = {| console :=
         [console_error
            "Gemini API Key is missing. Please set it in your environment variables."
            None];
       settled := Throw (Error "API_KEY_MISSING") |}.
Proof.
  unfold Rev2.generateShapePoints, Rev2.getApiKey.
  destruct process as [|[key|]]; simpl; intros H; try reflexivity.
  destruct (key =? "")%string eqn:E; [|discriminate].
  reflexivity.
Qed.

Lemma Rev2_present (key : string) (generateContent : Request -> Response)
      (description : string) (count : option Z) :
  key <> ""%string ->
  settled (Rev2.generateShapePoints (Env (Some key)) generateContent
                                    description count)
  = readPoints "Empty response"
      (generateContent {| apiKey := key; model := "gemini-3-flash-preview";
                          description := description;
                          count := count_or_default count |}).
Proof.
  intros Hkey. unfold Rev2.generateShapePoints, Rev2.getApiKey; simpl.
  destruct (String.eqb_spec key "") as [E|_]; [contradiction|].
  destruct (readPoints _ _); reflexivity.
Qed.

Lemma Rev1_absent (API_KEY : option string)
      (generateContent : Request -> Response)
      (description : string) (count : option Z) :
  truthy_key API_KEY = None ->
  settled (Rev1.generateShapePoints (Env API_KEY) generateContent description count)
  = Throw (Error "API Key is missing. Please configure your environment variables.").
Proof.
  intros H. unfold Rev1.generateShapePoints, Rev1.getAI; simpl.
  rewrite H. reflexivity.
Qed.

Lemma Rev1_present (key : string) (generateContent : Request -> Response)
      (description : string) (count : option Z) :
  key <> ""%string ->
  settled (Rev1.generateShapePoints (Env (Some key)) generateContent
                                    description count)
  = readPoints "Empty response from Gemini"
      (generateContent {| apiKey := key; model := "gemini-3-flash-preview";
                          description := description;
                          count := count_or_default count |}).
Proof.
  intros Hkey. unfold Rev1.generateShapePoints, Rev1.getAI; simpl.
  destruct (String.eqb_spec key "") as [E|_]; [contradiction|].
  destruct (readPoints _ _); reflexivity.
Qed.

Lemma Rev3_absent (API_KEY : option string)
      (generateContent : Request -> Response)
      (description : string) (count : option Z) :
  truthy_key API_KEY = None ->
  Rev3.generateShapePoints (Env API_KEY) generateContent description count
  = {| console := [console_warn "No API Key found. Returning empty shape."];
       settled := Ok (JArray []) |}.
Proof.
  intros H. unfold Rev3.generateShapePoints; simpl. rewrite H. reflexivity.
Qed.

Lemma Rev3_present (key : string) (generateContent : Request -> Response)
      (description : string) (count : option Z) :
  key <> ""%string ->
  settled (Rev3.generateShapePoints (Env (Some key)) generateContent
                                    description count)
  = readPoints "Empty response from Gemini"
      (generateContent {| apiKey := key; model := "gemini-2.5-flash";
                          description := description;
                          count := count_or_default count |}).
Proof.
  intros Hkey. unfold Rev3.generateShapePoints; simpl.
  destruct (String.eqb_spec key "") as [E|_]; [contradiction|].
  destruct (readPoints _ _); reflexivity.
Qed.

(** C4, as the spec states it, fails twice: without a credential revision 3
    resolves with the empty list, and with a credential every revision
    resolves with the empty list, nothing written to the console, when the
    response is the JSON of an object without points. *)
Lemma shape_service_returns_empty :
  settled (Rev3.generateShapePoints (Env None) remote_down "cat" None)
  = Ok (JArray []) /\
  Rev2.generateShapePoints (Env (Some "key"%string)) remote_no_points "cat" None
  = {| console := []; settled := Ok (JArray []) |} /\
  Rev1.generateShapePoints (Env (Some "key"%string)) remote_no_points "cat" None
  = {| console := []; settled := Ok (JArray []) |}.
Proof. repeat split; reflexivity. Qed.

(** C4 (amended). In revisions 1 and 2 of generateShapePoints an absent
    credential settles the call with the revision's missing-credential error
    (in revision 2 also when there is no process at all); with a credential,
    in every revision, a rejected call is rethrown as it is, a response
    without text and a text that is not JSON throw their own errors, and
    none of these is the missing-credential error unless the collaborator
    rejects with it.  A value is returned only for a response that parsed:
    the empty list when its JSON has no points.  Revision 3 resolves with
    the empty list, after a console warning, when the credential is absent. *)
Theorem shape_service_error_signals
        (generateContent : Request -> Response)
        (description : string) (count : option Z) :
  (forall process : Process,
     credential_absent process ->
     settled (Rev2.generateShapePoints process generateContent description count)
     = Throw (Error "API_KEY_MISSING")) /\
  (forall API_KEY : option string,
     truthy_key API_KEY = None ->
     settled (Rev1.generateShapePoints (Env API_KEY) generateContent
                                       description count)
     = Throw (Error "API Key is missing. Please configure your environment variables.")) /\
  (forall API_KEY : option string,
     truthy_key API_KEY = None ->
     Rev3.generateShapePoints (Env API_KEY) generateContent description count
     = {| console := [console_warn "No API Key found. Returning empty shape."];
          settled := Ok (JArray []) |}) /\
  (forall key : string,
     key <> ""%string ->
     call_failures_surface
       (Error "API_KEY_MISSING") "Empty response"
       (generateContent {| apiKey := key; model := "gemini-3-flash-preview";
                           description := description;
                           count := count_or_default count |})
       (settled (Rev2.generateShapePoints (Env (Some key)) generateContent
                                          description count)) /\
     call_failures_surface
       (Error "API Key is missing. Please configure your environment variables.")
       "Empty response from Gemini"
       (generateContent {| apiKey := key; model := "gemini-3-flash-preview";
                           description := description;
                           count := count_or_default count |})
       (settled (Rev1.generateShapePoints (Env (Some key)) generateContent
                                          description count)) /\
     call_failures_surface
       (Error "API_KEY_MISSING") "Empty response from Gemini"
       (generateContent {| apiKey := key; model := "gemini-2.5-flash";
                           description := description;
                           count := count_or_default count |})
       (settled (Rev3.generateShapePoints (Env (Some key)) generateContent
                                          description count))).
Proof.
  split; [intros process H; rewrite Rev2_absent by exact H; reflexivity|].
  split; [intros API_KEY H; apply Rev1_absent; exact H|].
  split; [intros API_KEY H; apply Rev3_absent; exact H|].
  intros key Hkey.
  rewrite Rev2_present, Rev1_present, Rev3_present by exact Hkey.
  split; [|split]; apply readPoints_surface; discriminate.
Qed.

End ShapeService.

(* ================================================================== *)
(** ** Further properties of the shape generators *)
(* ================================================================== *)

Section GeneratorLoopMore.
Import Js ParticleScene.
Context {A : Type}.

(** A loop of [n + m] iterations is a loop of [n] followed by a loop of [m]
    on the points and the source the first one leaves. *)
Lemma for_push_add (body : Rand A) :
  forall (n m : nat) (points : list A) (s : RandomSource),
    for_push (n + m) body points s
    = for_push m body (fst (for_push n body points s))
               (snd (for_push n body points s)).
Proof.
  induction n as [|n IH]; intros m points s; simpl.
  - reflexivity.
  - unfold bind. destruct (body s) as [p s']. apply IH.
Qed.

(** The points already pushed stay in front. *)
Lemma for_push_prefix (body : Rand A) :
  forall (n : nat) (points : list A) (s : RandomSource),
    for_push n body points s
    = (points ++ fst (for_push n body [] s), snd (for_push n body [] s)).
Proof.
  induction n as [|n IH]; intros points s; simpl.
  - unfold ret; simpl. rewrite app_nil_r. reflexivity.
  - unfold bind. destruct (body s) as [p s'].
    rewrite (IH (points ++ [p])), (IH ([] ++ [p])). simpl.
    rewrite <- app_assoc. reflexivity.
Qed.

(** A body that makes its point from the next [k] draws: the loop uses
    [k * n] draws and its [j]-th point comes from the draws at [k * j]. *)
Lemma for_push_fixed_draws (k : nat) (make : RandomSource -> A) (body : Rand A)
      (Hbody : forall s, body s = (make s, advance s k)) :
  forall (n : nat) (s : RandomSource),
    snd (for_push n body [] s) = advance s (k * n) /\
    forall j : nat, (j < n)%nat ->
      nth_error (fst (for_push n body [] s)) j = Some (make (advance s (k * j))).
Proof.
  induction n as [|n IH]; intros s.
  - simpl. split.
    + rewrite Nat.mul_0_r. destruct s; reflexivity.
    + intros j Hj; lia.
  - cbn [for_push]. unfold bind. rewrite Hbody.
    rewrite for_push_prefix. cbn [fst snd].
    destruct (IH (advance s k)) as [Hs Hn]. split.
    + rewrite Hs. unfold advance; simpl. f_equal. lia.
    + intros [|j] Hj.
      * simpl. rewrite Nat.mul_0_r. destruct s; reflexivity.
      * simpl. rewrite Hn by lia. f_equal. f_equal.
        unfold advance; simpl. f_equal. lia.
Qed.

End GeneratorLoopMore.

Section ShapeGeneratorsMore.
Import Js types geometry shape_facts ParticleScene.

Lemma sphere_point_draws (s : RandomSource) :
  sphere_point s
  = (sphere_of_draws (draws s (cursor s)) (draws s (S (cursor s))), advance s 2).
Proof. reflexivity. Qed.

(** For a height draw [v] in [[0,1)] the sphere point sits at height
    [1.2 * (2 v - 1)]. *)
Lemma sphere_of_draws_height (u v : R) :
  0 <= v < 1 -> z (sphere_of_draws u v) = 1.2 * (2 * v - 1).
Proof.
  intros Hv. unfold sphere_of_draws; cbn [z].
  rewrite cos_acos by lra. reflexivity.
Qed.

(** X1. generateSphere(N) uses exactly 2N draws of Math.random(); its j-th
    point is made from the draws 2j (the angle around the axis) and 2j+1
    alone, and its height z is 1.2 (2v - 1) for the second of them: heights
    are spread like the draw itself. *)
Theorem generateSphere_draws
        (N : Z) (s : RandomSource) (j : nat)
        (Hs : unit_draws s) (Hj : (Z.of_nat j < N)%Z) :
  snd (generateSphere N s) = advance s (2 * Z.to_nat N) /\
  exists p : Point3D,
    nth_error (fst (generateSphere N s)) j = Some p /\
    p = sphere_of_draws (draws s (2 * j + cursor s)) (draws s (2 * j + 1 + cursor s)) /\
    z p = 1.2 * (2 * draws s (2 * j + 1 + cursor s) - 1).
Proof.
  unfold generateSphere, iterations.
  destruct (for_push_fixed_draws 2
              (fun s => sphere_of_draws (draws s (cursor s)) (draws s (S (cursor s))))
              sphere_point sphere_point_draws (Z.to_nat N) s) as [Hsnd Hnth].
  split; [exact Hsnd|].
  eexists. split; [apply Hnth; lia|].
  cbn [advance draws cursor].
  replace (S (2 * j + cursor s)) with (2 * j + 1 + cursor s)%nat by lia.
  split; [reflexivity|].
  apply sphere_of_draws_height, Hs.
Qed.

Lemma generateSphere_draws_witness :
  exists p : Point3D,
    nth_error (fst (generateSphere 3 half_draws)) 1 = Some p /\ z p = 0.
Proof.
  assert (Hj : (Z.of_nat 1 < 3)%Z) by (simpl; lia).
  destruct (generateSphere_draws 3 half_draws 1 half_draws_unit Hj)
    as (_ & p & Hp & _ & Hz).
  exists p. split; [exact Hp|].
  rewrite Hz. cbn [half_draws draws]. lra.
Defined.

Lemma cube_point_keeps (s : RandomSource) :
  unit_draws s -> unit_draws (snd (cube_point s)).
Proof. intros H n. apply H. Qed.

Lemma cube_point_on_face (s : RandomSource) :
  unit_draws s -> on_cube_face (fst (cube_point s)).
Proof.
  intros H. unfold cube_point, bind, Math_random, ret. cbn [fst snd draws cursor].
  pose proof (H (S (S (cursor s)))) as H3.
  pose proof (H (S (S (S (cursor s))))) as H4.
  pose proof (H (S (S (S (S (cursor s)))))) as H5.
  assert (Hsign : forall u : R,
             Rabs ((if Rlt_dec u 0.5 then -1 else 1) * 1.2) = 1.2 /\
             -1.2 <= (if Rlt_dec u 0.5 then -1 else 1) * 1.2 <= 1.2).
  { intros u. destruct (Rlt_dec u 0.5).
    - split; [rewrite Rabs_left by lra; lra | lra].
    - split; [rewrite Rabs_right by lra; lra | lra]. }
  destruct (Hsign (draws s (S (cursor s)))) as [Habs Hrange].
  unfold on_cube_face.
  destruct (Math_floor (draws s (cursor s) * 3) =? 0)%Z;
    [|destruct (Math_floor (draws s (cursor s) * 3) =? 1)%Z];
    cbn [x y z]; repeat split; try lra; auto.
Qed.

(** X2. Every point of generateCube lies in the cube of half-side 1.2 and has
    at least one coordinate snapped onto a face, at -1.2 or 1.2. *)
Theorem generateCube_on_faces (N : Z) (s : RandomSource) (Hs : unit_draws s) :
  Forall on_cube_face (fst (generateCube N s)).
Proof.
  unfold generateCube.
  apply (for_push_Forall unit_draws); auto.
  intros s' Hs'. split; [apply cube_point_on_face | apply cube_point_keeps]; exact Hs'.
Qed.

Lemma generateCube_on_faces_witness :
  Forall on_cube_face (fst (generateCube 4 half_draws)).
Proof. exact (generateCube_on_faces 4 half_draws half_draws_unit). Defined.

Lemma radiusAt_range (s : RandomSource) (yn : R) :
  unit_draws s -> 0 <= radiusAt s yn <= 0.8.
Proof.
  intros H. unfold radiusAt, bottleRadius.
  destruct (Rlt_dec yn 0.05).
  - unfold bind, Math_random, ret; cbn [fst].
    pose proof (H (cursor s)) as Hu.
    pose proof (sqrt_pos (draws s (cursor s))) as H0.
    assert (sqrt (draws s (cursor s)) <= 1).
    { rewrite <- sqrt_1. apply sqrt_le_1_alt. lra. }
    lra.
  - destruct (Rlt_dec yn 0.6); [simpl; lra|].
    destruct (Rlt_dec yn 0.7); [simpl; lra|].
    destruct (Rlt_dec yn 0.95); simpl; lra.
Qed.

Lemma bottle_point_spec_envelope (p : Point3D) :
  bottle_point_spec p -> in_bottle_envelope p.
Proof.
  intros (yn & theta & s' & Hy & _ & Hs' & ->).
  unfold in_bottle_envelope; cbn [x y z].
  pose proof (radiusAt_range s' yn Hs') as Hr.
  split; [|lra].
  replace (radiusAt s' yn * cos theta * (radiusAt s' yn * cos theta)
           + radiusAt s' yn * sin theta * (radiusAt s' yn * sin theta))
    with (radiusAt s' yn * radiusAt s' yn * ((sin theta)² + (cos theta)²))
    by (unfold Rsqr; ring).
  rewrite sin2_cos2. nra.
Qed.

(** X3. Every point of generateBottle stays within the body radius 0.8 of the
    vertical axis and between the heights -1.5 and 2.7. *)
Theorem generateBottle_envelope (N : Z) (s : RandomSource) (Hs : unit_draws s) :
  Forall in_bottle_envelope (fst (generateBottle N s)).
Proof.
  unfold generateBottle.
  apply (for_push_Forall unit_draws); auto.
  intros s' Hs'. split.
  - apply bottle_point_spec_envelope, bottle_point_shape, Hs'.
  - apply bottle_point_keeps, Hs'.
Qed.

Lemma generateBottle_envelope_witness :
  Forall in_bottle_envelope (fst (generateBottle 4 high_draws)).
Proof. exact (generateBottle_envelope 4 high_draws high_draws_unit). Defined.

(** X4. A count that is zero or negative gives no point and draws no random
    number, in each of the three generators. *)
Theorem generators_nonpositive_count
        (N : Z) (s : RandomSource) (HN : (N <= 0)%Z) :
  generateSphere N s = ([], s) /\
  generateCube N s = ([], s) /\
  generateBottle N s = ([], s).
Proof.
  unfold generateSphere, generateCube, generateBottle, iterations.
  replace (Z.to_nat N) with 0%nat by lia.
  repeat split; reflexivity.
Qed.

Lemma generators_nonpositive_count_witness :
  generateSphere (-5) half_draws = ([], half_draws) /\
  generateCube (-5) half_draws = ([], half_draws) /\
  generateBottle (-5) half_draws = ([], half_draws).
Proof.
  assert (H : (-5 <= 0)%Z) by lia.
  exact (generators_nonpositive_count (-5) half_draws H).
Defined.

(** X5. Generating N + M points is generating N points and then M points
    from the random source the first run leaves, for each generator. *)
Theorem generators_split_count
        (N M : Z) (s : RandomSource) (HN : (0 <= N)%Z) (HM : (0 <= M)%Z) :
  fst (generateSphere (N + M) s)
  = fst (generateSphere N s) ++ fst (generateSphere M (snd (generateSphere N s))) /\
  fst (generateCube (N + M) s)
  = fst (generateCube N s) ++ fst (generateCube M (snd (generateCube N s))) /\
  fst (generateBottle (N + M) s)
  = fst (generateBottle N s) ++ fst (generateBottle M (snd (generateBottle N s))).
Proof.
  unfold generateSphere, generateCube, generateBottle, iterations.
  rewrite Z2Nat.inj_add by assumption.
  repeat split; rewrite for_push_add, for_push_prefix; reflexivity.
Qed.

Lemma generators_split_count_witness :
  fst (generateSphere (2 + 3) half_draws)
  = fst (generateSphere 2 half_draws)
    ++ fst (generateSphere 3 (snd (generateSphere 2 half_draws))).
Proof.
  assert (H2 : (0 <= 2)%Z) by lia. assert (H3 : (0 <= 3)%Z) by lia.
  exact (proj1 (generators_split_count 2 3 half_draws H2 H3)).
Defined.

End ShapeGeneratorsMore.

(* ================================================================== *)
(** ** Further properties of the gesture signal *)
(* ================================================================== *)

Section GestureSignalMore.
Import Js types HandController HandFixture HandCamera.

Lemma rescale_monotone (d1 d2 : R) : d1 <= d2 -> rescale d1 <= rescale d2.
Proof.
  intros H. unfold rescale, Math_max, Math_min.
  apply Rmax_lub.
  - apply Rmax_l.
  - eapply Rle_trans; [|apply Rmax_r].
    apply Rmin_glb; [apply Rmin_l|].
    eapply Rle_trans; [apply Rmin_r|]. lra.
Qed.

Lemma rescale_open (d : R) : rescale d > 0.5 <-> d > 0.3.
Proof.
  split; intros H.
  - destruct (Rle_dec d 0.15) as [Hl|Hl]; [rewrite rescale_below in H; lra|].
    destruct (Rle_dec 0.45 d) as [Hh|Hh]; [lra|].
    rewrite rescale_between in H by lra. lra.
  - destruct (Rle_dec 0.45 d) as [Hh|Hh]; [rewrite rescale_above; lra|].
    rewrite rescale_between by lra. lra.
Qed.

Lemma rescale_closed (d : R) : rescale d = 0 <-> d <= 0.15.
Proof.
  split; intros H; [|apply rescale_below; exact H].
  destruct (Rle_dec d 0.15) as [Hl|Hl]; [exact Hl|].
  destruct (Rle_dec 0.45 d) as [Hh|Hh]; [rewrite rescale_above in H; lra|].
  rewrite rescale_between in H by lra. lra.
Qed.

Lemma rescale_full (d : R) : rescale d = 1 <-> 0.45 <= d.
Proof.
  split; intros H; [|apply rescale_above; exact H].
  destruct (Rle_dec 0.45 d) as [Hh|Hh]; [exact Hh|].
  destruct (Rle_dec d 0.15) as [Hl|Hl]; [rewrite rescale_below in H; lra|].
  rewrite rescale_between in H by lra. lra.
Qed.

(** X6. For a detected hand, isOpen is true exactly when the average
    distance from the wrist to the five fingertips exceeds 0.30; openness is
    0 exactly up to 0.15 and 1 exactly from 0.45 on; and a larger average
    distance never gives a smaller openness. *)
Theorem hand_open_thresholds
        (hand : list Landmark) (data : HandData)
        (Hdata : detectedHandData hand = Ok data) :
  (exists wrist t4 t8 t12 t16 t20 : Landmark,
     nth_error hand 0 = Some wrist /\
     nth_error hand 4 = Some t4 /\ nth_error hand 8 = Some t8 /\
     nth_error hand 12 = Some t12 /\ nth_error hand 16 = Some t16 /\
     nth_error hand 20 = Some t20 /\
     let avgDist := averageTipDistance wrist t4 t8 t12 t16 t20 in
     (isOpen data = true <-> avgDist > 0.3) /\
     (openness data = 0 <-> avgDist <= 0.15) /\
     (openness data = 1 <-> 0.45 <= avgDist)) /\
  (forall d1 d2 : R, d1 <= d2 -> rescale d1 <= rescale d2).
Proof.
  split; [|exact rescale_monotone].
  destruct (detectedHandData_spec _ _ Hdata)
    as (wrist & t4 & t8 & t12 & t16 & t20 & H0 & H4 & H8 & H12 & H16 & H20 & Ho & Hi & _).
  exists wrist, t4, t8, t12, t16, t20.
  repeat (split; [assumption|]).
  cbv zeta. rewrite Hi, Ho, <- rescale_clamped_eq.
  split; [|split].
  - rewrite gt_true_iff. apply rescale_open.
  - apply rescale_closed.
  - apply rescale_full.
Qed.

Lemma hand_open_thresholds_witness :
  exists data : HandData,
    detectedHandData open_hand = Ok data /\ isOpen data = true.
Proof.
  destruct (detectedHandData_total open_hand) as [data Hdata];
    [unfold open_hand; simpl; lia|].
  exists data. split; [exact Hdata|].
  destruct (hand_open_thresholds open_hand data Hdata)
    as [(wrist & t4 & t8 & t12 & t16 & t20 & H0 & H4 & H8 & H12 & H16 & H20 & Hopen & _) _].
  unfold open_hand in H0, H4, H8, H12, H16, H20.
  cbn [nth_error repeat] in H0, H4, H8, H12, H16, H20.
  inversion H0; inversion H4; inversion H8; inversion H12; inversion H16;
    inversion H20; subst.
  apply Hopen. unfold averageTipDistance. rewrite open_hand_distance. lra.
Defined.

Lemma forEach_ext (f g : R -> nat -> Result R) (l : list nat) :
  (forall acc idx, f acc idx = g acc idx) ->
  forall acc, forEach f l acc = forEach g l acc.
Proof.
  intros Hfg. induction l as [|idx l IH]; intros acc; simpl.
  - reflexivity.
  - rewrite Hfg. destruct (g acc idx); [apply IH | reflexivity].
Qed.

Lemma addTipDistance_translate (d : Landmark) (hand : list Landmark)
      (acc : R) (idx : nat) :
  addTipDistance (map (translate d) hand) (nth_error (map (translate d) hand) 0)
                 acc idx
  = addTipDistance hand (nth_error hand 0) acc idx.
Proof.
  unfold addTipDistance. rewrite !nth_error_map.
  destruct (nth_error hand idx) as [tip|]; [|reflexivity].
  destruct (nth_error hand 0) as [wrist|]; [|reflexivity].
  cbn [option_map translate x y z].
  do 2 f_equal. f_equal. ring.
Qed.

(** X7. The hand data depends on the landmarks only through their positions
    relative to each other: moving the whole hand by any vector changes
    neither the openness nor isOpen, nor whether the computation throws. *)
Theorem hand_data_translation_invariant (d : Landmark) (hand : list Landmark) :
  detectedHandData (map (translate d) hand) = detectedHandData hand.
Proof.
  unfold detectedHandData.
  rewrite (forEach_ext _ _ tips (addTipDistance_translate d hand)).
  reflexivity.
Qed.

End GestureSignalMore.

Section GestureLoopMore.
Import Js types HandController HandFixture HandCamera.

(** X8. Once predictWebcam has looked at a video frame, looking at the same
    frame again reports nothing: the time of the frame is remembered (also
    when the first look threw), no hand data is handed on, the refs stay as
    they are and the next animation frame is requested. *)
Theorem predictWebcam_same_frame
        (refs : Refs) (t1 t2 : R) (tracker : HandLandmarker) (video : Video)
        (Hl : landmarkerRef refs = Some tracker)
        (Hv : videoRef refs = Some video) :
  lastVideoTimeRef (fst (predictWebcam refs t1)) = currentTime video /\
  predictWebcam (fst (predictWebcam refs t1)) t2
  = (fst (predictWebcam refs t1),
     Ok {| onHandUpdate := []; requestAnimationFrame := true |}).
Proof.
  assert (Hsame : forall r : Refs,
             landmarkerRef r = Some tracker -> videoRef r = Some video ->
             lastVideoTimeRef r = currentTime video ->
             predictWebcam r t2
             = (r, Ok {| onHandUpdate := []; requestAnimationFrame := true |})).
  { intros r Hrl Hrv Hrt. unfold predictWebcam. rewrite Hrl, Hrv.
    destruct (Req_dec_T (currentTime video) (lastVideoTimeRef r)) as [_|Hne];
      [reflexivity | symmetry in Hrt; contradiction]. }
  assert (Hfirst : landmarkerRef (fst (predictWebcam refs t1)) = Some tracker /\
                   videoRef (fst (predictWebcam refs t1)) = Some video /\
                   lastVideoTimeRef (fst (predictWebcam refs t1)) = currentTime video).
  { unfold predictWebcam. rewrite Hl, Hv.
    destruct (Req_dec_T (currentTime video) (lastVideoTimeRef refs)) as [Heq|Hne].
    - cbn [fst]. auto.
    - destruct (handUpdate (detectForVideo tracker video t1)); cbn [fst];
        cbn [landmarkerRef videoRef lastVideoTimeRef]; auto. }
  destruct Hfirst as (H1 & H2 & H3).
  split; [exact H3 | apply Hsame; assumption].
Qed.

Lemma predictWebcam_same_frame_witness :
  predictWebcam (fst (predictWebcam open_hand_refs 0)) 16
  = (fst (predictWebcam open_hand_refs 0),
     Ok {| onHandUpdate := []; requestAnimationFrame := true |}).
Proof.
  exact (proj2 (predictWebcam_same_frame open_hand_refs 0 16 _ _ eq_refl eq_refl)).
Defined.

Lemma detectedHandData_short (hand : list Landmark) :
  (length hand < 21)%nat -> detectedHandData hand = Throw TypeError.
Proof.
  intros Hlen.
  assert (H20 : nth_error hand 20 = None) by (apply nth_error_None; lia).
  unfold detectedHandData, tips. cbn [forEach]. unfold addTipDistance.
  destruct (nth_error hand 4); [|reflexivity].
  destruct (nth_error hand 0); [|reflexivity].
  destruct (nth_error hand 8); [|reflexivity].
  destruct (nth_error hand 12); [|reflexivity].
  destruct (nth_error hand 16); [|reflexivity].
  rewrite H20. reflexivity.
Qed.

(** X9. When the tracker reports a first hand of fewer than 21 landmarks on
    a new video frame, predictWebcam throws a TypeError: nothing is handed
    to onHandUpdate, no further animation frame is requested, and the frame
    is nevertheless remembered as seen. *)
Theorem predictWebcam_short_hand
        (refs : Refs) (nowInMs : R) (tracker : HandLandmarker) (video : Video)
        (hand : list Landmark) (others : list (list Landmark))
        (Hl : landmarkerRef refs = Some tracker)
        (Hv : videoRef refs = Some video)
        (Hnew : currentTime video <> lastVideoTimeRef refs)
        (Hhand : landmarks (detectForVideo tracker video nowInMs)
                 = Some (hand :: others))
        (Hshort : (length hand < 21)%nat) :
  predictWebcam refs nowInMs
  = ({| landmarkerRef := Some tracker; videoRef := Some video;
        lastVideoTimeRef := currentTime video |},
     Throw TypeError).
Proof.
  unfold predictWebcam. rewrite Hl, Hv.
  destruct (Req_dec_T (currentTime video) (lastVideoTimeRef refs)) as [Heq|_];
    [contradiction|].
  unfold handUpdate. rewrite Hhand, detectedHandData_short by exact Hshort.
  reflexivity.
Qed.

Lemma predictWebcam_short_hand_witness :
  snd (predictWebcam short_hand_refs 0) = Throw TypeError.
Proof.
  assert (Hnew : (1 : R) <> -1) by lra.
  assert (Hshort : (length short_hand < 21)%nat) by (simpl; lia).
  rewrite (predictWebcam_short_hand short_hand_refs 0 _ _ short_hand []
             eq_refl eq_refl Hnew eq_refl Hshort).
  reflexivity.
Defined.

(** X10. However the start of the hand tracker ends, loading is over.  A
    failure to load the vision files or the landmarker shows the message
    about the models, keeps no landmarker and logs the error; with the
    models loaded, a refused camera shows the message about the permission;
    permission is shown as granted, and the stream played, exactly when
    models, camera and video element are all there; and no error is shown
    together with a granted permission. *)
Theorem tracker_start_outcomes (host : Host) :
  loading (ui (initLandmarker host)) = false /\
  (~ models_loaded host ->
     error (ui (initLandmarker host)) = Some "Failed to load AI Vision models."%string /\
     permissionGranted (ui (initLandmarker host)) = false /\
     landmarker (initLandmarker host) = None /\
     length (console (initLandmarker host)) = 1%nat) /\
  (models_loaded host -> ~ camera_granted host ->
     error (ui (initLandmarker host)) = Some "Camera permission denied."%string /\
     permissionGranted (ui (initLandmarker host)) = false /\
     landmarker (initLandmarker host) <> None) /\
  (permissionGranted (ui (initLandmarker host)) = true <->
     models_loaded host /\ camera_granted host /\ videoElement host = true) /\
  (streaming (initLandmarker host) = permissionGranted (ui (initLandmarker host))) /\
  (permissionGranted (ui (initLandmarker host)) = true ->
     error (ui (initLandmarker host)) = None) /\
  (models_loaded host -> camera_granted host -> videoElement host = false ->
     error (ui (initLandmarker host)) = None /\
     permissionGranted (ui (initLandmarker host)) = false).
Proof.
  unfold initLandmarker, startCamera, loadFailed, models_loaded, camera_granted, mounted.
  destruct host as [[v|e1] [created|e2] [stream|e3] [|]];
    cbn [forVisionTasks createFromOptions getUserMedia videoElement
         ui loading error permissionGranted landmarker console streaming];
    repeat split; intros;
    repeat match goal with
           | H : _ /\ _ |- _ => destruct H
           | H : exists _, _ |- _ => destruct H
           | H : ~ _ |- _ =>
               try (exfalso; apply H; repeat split; eexists; reflexivity)
           end;
    try reflexivity; try discriminate; try (eexists; reflexivity).
Qed.

End GestureLoopMore.

(* ================================================================== *)
(** ** Further properties of the particle update *)
(* ================================================================== *)

Section ParticleMore.
Import Js types ParticleScene.

(** X11. The initial particle buffer holds PARTICLE_COUNT * 3 numbers, each
    in [-7.5, 7.5). *)
Theorem currentPositions_in_volume (s : RandomSource) (Hs : unit_draws s) :
  length (fst (currentPositions s)) = (PARTICLE_COUNT * 3)%nat /\
  Forall (fun p => -7.5 <= p < 7.5) (fst (currentPositions s)).
Proof.
  split; [apply currentPositions_length|].
  unfold currentPositions.
  apply (for_push_Forall unit_draws); auto.
  intros s' Hs'. unfold bind, Math_random, ret; cbn [fst snd]. split.
  - pose proof (Hs' (cursor s')). lra.
  - intros n; apply Hs'.
Qed.

Lemma currentPositions_in_volume_witness :
  Forall (fun p => -7.5 <= p < 7.5) (fst (currentPositions half_draws)).
Proof. exact (proj2 (currentPositions_in_volume half_draws half_draws_unit)). Defined.

Lemma damp_gap (p t : R) : damp p t - t = 0.94 * (p - t).
Proof. unfold damp, DAMPING_FACTOR. lra. Qed.

Lemma damp_iter_gap (p0 t : R) (n : nat) :
  Nat.iter n (fun p => damp p t) p0 - t = 0.94 ^ n * (p0 - t).
Proof.
  induction n as [|n IH].
  - simpl. lra.
  - rewrite Nat.iter_succ, damp_gap, IH. simpl. ring.
Qed.

(** X12. Under a target that stays the same, each frame leaves 94% of the
    distance to it: after n frames the coordinate is at 0.94^n of its
    initial distance, on the same side of the target, and it comes as close
    to the target as one wants. *)
Theorem damping_converges (p0 t : R) :
  (forall n : nat,
     Nat.iter n (fun p => damp p t) p0 - t = 0.94 ^ n * (p0 - t)) /\
  (forall n : nat,
     Rabs (Nat.iter (S n) (fun p => damp p t) p0 - t)
     <= Rabs (Nat.iter n (fun p => damp p t) p0 - t)) /\
  (forall n : nat,
     (p0 <= t -> p0 <= Nat.iter n (fun p => damp p t) p0 <= t) /\
     (t <= p0 -> t <= Nat.iter n (fun p => damp p t) p0 <= p0)) /\
  (forall eps : R, 0 < eps ->
     exists N : nat, forall n : nat, (N <= n)%nat ->
       Rabs (Nat.iter n (fun p => damp p t) p0 - t) < eps).
Proof.
  assert (Hpow : forall n : nat, 0 < 0.94 ^ n <= 1).
  { induction n as [|n IH]; simpl; [lra | nra]. }
  split; [apply damp_iter_gap|]. split; [|split].
  - intros n. rewrite Nat.iter_succ, damp_gap, Rabs_mult, (Rabs_right 0.94) by lra.
    pose proof (Rabs_pos (Nat.iter n (fun p => damp p t) p0 - t)). lra.
  - intros n. pose proof (damp_iter_gap p0 t n) as H. pose proof (Hpow n) as Hn.
    split; intros Hle; nra.
  - intros eps Heps.
    destruct (Req_dec p0 t) as [->|Hne].
    + exists 0%nat. intros n _. rewrite damp_iter_gap.
      replace (0.94 ^ n * (t - t)) with 0 by ring. rewrite Rabs_R0. exact Heps.
    + assert (Hd : 0 < Rabs (p0 - t)) by (apply Rabs_pos_lt; lra).
      destruct (pow_lt_1_zero 0.94 ltac:(rewrite Rabs_right; lra)
                              (eps / Rabs (p0 - t))
                              ltac:(apply Rdiv_lt_0_compat; lra)) as [N HN].
      exists N. intros n Hn. rewrite damp_iter_gap, Rabs_mult.
      specialize (HN n Hn).
      apply (Rmult_lt_compat_r (Rabs (p0 - t))) in HN; [|exact Hd].
      unfold Rdiv in HN. rewrite Rmult_assoc, Rinv_l, Rmult_1_r in HN by lra.
      exact HN.
Qed.

Lemma Int_part_one_and_half : Int_part 1.5 = 1%Z.
Proof. symmetry. apply Int_part_spec. lra. Qed.

Lemma Math_pow_one_and_half (a : R) :
  Math_pow a 1.5 = if Rlt_dec 0 a then Rpower a 1.5 else 0.
Proof.
  unfold Math_pow. rewrite Int_part_one_and_half.
  destruct (Req_dec_T 1.5 1) as [H|_]; [lra | reflexivity].
Qed.

(** The power curve of the explosion on openness in [0, 1]. *)
Lemma explosion_curve (a : R) :
  0 <= a <= 1 ->
  0 <= Math_pow a 1.5 <= 1 /\
  (a = 0 -> Math_pow a 1.5 = 0) /\ (a = 1 -> Math_pow a 1.5 = 1).
Proof.
  intros Ha. rewrite Math_pow_one_and_half.
  destruct (Rlt_dec 0 a) as [Hpos|Hnpos].
  - unfold Rpower.
    assert (Hln : ln a <= 0).
    { destruct (Req_dec a 1) as [->|Hne]; [rewrite ln_1; lra|].
      left. rewrite <- ln_1. apply ln_increasing; lra. }
    split; [|split].
    + split; [left; apply exp_pos|].
      rewrite <- exp_0.
      destruct (Req_dec (1.5 * ln a) 0) as [->|Hne]; [lra|].
      left. apply exp_increasing. lra.
    + intros ->. lra.
    + intros ->. rewrite ln_1, Rmult_0_r. apply exp_0.
  - split; [lra|]. split; [reflexivity | intros ->; lra].
Qed.

(** A coordinate of the direction from the center is below 1 in absolute
    value. *)
Lemma direction_below_one (a b c : R) : Rabs (a / len a b c) < 1.
Proof.
  pose proof (len_lower_bound a b c) as Hlen.
  assert (Habs : Rabs a <= sqrt (a * a + b * b + c * c)).
  { rewrite <- sqrt_Rsqr_abs. apply sqrt_le_1_alt. unfold Rsqr. nra. }
  unfold Rdiv. rewrite Rabs_mult, Rabs_inv, (Rabs_right (len a b c)) by lra.
  apply (Rmult_lt_reg_r (len a b c)); [lra|].
  rewrite Rmult_assoc, Rinv_l, Rmult_1_r, Rmult_1_l by lra.
  unfold len in *. lra.
Qed.

Lemma noise_bound (w a : R) :
  0 <= a -> -1 <= w <= 1 -> Rabs (w * 0.5 * a * 2.5) <= 1.25 * a.
Proof. intros Ha Hw. apply Rabs_le. nra. Qed.

Lemma push_bound (dir force noise : R) :
  Rabs dir < 1 -> 0 <= force -> Rabs (dir * force + noise) <= force + Rabs noise.
Proof.
  intros Hd Hf.
  eapply Rle_trans; [apply Rabs_triang|].
  rewrite Rabs_mult, (Rabs_right force) by lra.
  pose proof (Rabs_pos dir). nra.
Qed.

End ParticleMore.

Section ParticleTargetMore.
Import Js types ParticleScene.

Lemma breathe_small (props : ParticleSceneProps) (time : R) :
  -0.05 <= breathe props time <= 0.05.
Proof.
  unfold breathe. destruct (handDetected props); [lra|].
  pose proof (SIN_bound (time * 1.5)). lra.
Qed.

(** X13. With no hand detected, or a hand of openness 0, the target of a
    particle is its jittered shape point scaled about the center by
    1.8 (1 + breathe), a factor between 1.71 and 1.89: there is neither
    explosion nor noise. *)
Theorem closed_hand_target
        (props : ParticleSceneProps) (time : R) (i : nat) (s : RandomSource)
        (Hzero : activeOpenness props = 0) :
  exists raw : Point3D,
    rawTarget (targetPoints props) i = Some raw /\
    particleTarget props time i s
    = (x (fst (jitteredTarget raw s)) * (1.8 * (1 + breathe props time)),
       y (fst (jitteredTarget raw s)) * (1.8 * (1 + breathe props time)),
       z (fst (jitteredTarget raw s)) * (1.8 * (1 + breathe props time))) /\
    1.71 <= 1.8 * (1 + breathe props time) <= 1.89.
Proof.
  destruct (rawTarget_defined (targetPoints props) i) as [raw Hraw].
  exists raw. split; [exact Hraw|]. split.
  - unfold particleTarget. rewrite Hraw, Hzero. unfold instantTarget.
    destruct (explosion_curve 0 ltac:(lra)) as (_ & H0 & _).
    rewrite (H0 eq_refl). unfold Rdiv.
    f_equal; [f_equal|]; ring.
  - pose proof (breathe_small props time). lra.
Qed.

Lemma closed_hand_target_witness :
  exists raw : Point3D,
    rawTarget (targetPoints idle_props) 7 = Some raw /\
    1.71 <= 1.8 * (1 + breathe idle_props 2) <= 1.89.
Proof.
  destruct (closed_hand_target idle_props 2 7 half_draws eq_refl)
    as (raw & Hraw & _ & Hscale).
  exists raw. split; assumption.
Defined.

(** X14. For an openness in [0, 1] the explosion force is between 0 and 6
    (0 for a closed hand, 6 for a fully open one), and the explosion and the
    noise together move each coordinate of the target away from the scaled
    shape point by at most the force plus 1.25 times the openness. *)
Theorem explosion_displacement_bounded
        (target : Point3D) (time : R) (i : nat) (a b : R)
        (Ha : 0 <= a <= 1) :
  0 <= Math_pow a 1.5 * EXPLOSION_SCALE <= 6 /\
  (a = 0 -> Math_pow a 1.5 * EXPLOSION_SCALE = 0) /\
  (a = 1 -> Math_pow a 1.5 * EXPLOSION_SCALE = 6) /\
  Rabs (coordinate 0 (instantTarget target time i a b)
        - x target * 1.8 * (1 + b))
  <= Math_pow a 1.5 * EXPLOSION_SCALE + 1.25 * a /\
  Rabs (coordinate 1 (instantTarget target time i a b)
        - y target * 1.8 * (1 + b))
  <= Math_pow a 1.5 * EXPLOSION_SCALE + 1.25 * a /\
  Rabs (coordinate 2 (instantTarget target time i a b)
        - z target * 1.8 * (1 + b))
  <= Math_pow a 1.5 * EXPLOSION_SCALE + 1.25 * a.
Proof.
  destruct (explosion_curve a Ha) as (Hc & Hc0 & Hc1).
  unfold EXPLOSION_SCALE.
  split; [lra|]. split; [intros H; rewrite (Hc0 H); lra|].
  split; [intros H; rewrite (Hc1 H); lra|].
  unfold instantTarget, EXPLOSION_SCALE. cbn [coordinate].
  set (tx := x target * 1.8 * (1 + b)).
  set (ty := y target * 1.8 * (1 + b)).
  set (tz := z target * 1.8 * (1 + b)).
  set (force := Math_pow a 1.5 * 6.0).
  assert (Hf : 0 <= force) by (unfold force; lra).
  pose proof (SIN_bound (time * 2 + INR i * 0.1)) as Hx.
  pose proof (COS_bound (time * 1.5 + INR i * 0.1)) as Hy.
  pose proof (SIN_bound (time + INR i * 0.1)) as Hz.
  split; [|split].
  - replace (tx + tx / len tx ty tz * force
             + sin (time * 2 + INR i * 0.1) * 0.5 * a * 2.5 - tx)
      with (tx / len tx ty tz * force
            + sin (time * 2 + INR i * 0.1) * 0.5 * a * 2.5) by ring.
    eapply Rle_trans; [apply push_bound; [apply direction_below_one | exact Hf]|].
    pose proof (noise_bound (sin (time * 2 + INR i * 0.1)) a ltac:(lra) Hx). lra.
  - replace (ty + ty / len tx ty tz * force
             + cos (time * 1.5 + INR i * 0.1) * 0.5 * a * 2.5 - ty)
      with (ty / len tx ty tz * force
            + cos (time * 1.5 + INR i * 0.1) * 0.5 * a * 2.5) by ring.
    assert (Hdir : Rabs (ty / len tx ty tz) < 1).
    { replace (len tx ty tz) with (len ty tx tz)
        by (unfold len; f_equal; f_equal; ring).
      apply direction_below_one. }
    eapply Rle_trans; [apply push_bound; [exact Hdir | exact Hf]|].
    pose proof (noise_bound (cos (time * 1.5 + INR i * 0.1)) a ltac:(lra) Hy). lra.
  - replace (tz + tz / len tx ty tz * force
             + sin (time + INR i * 0.1) * 0.5 * a * 2.5 - tz)
      with (tz / len tx ty tz * force
            + sin (time + INR i * 0.1) * 0.5 * a * 2.5) by ring.
    assert (Hdir : Rabs (tz / len tx ty tz) < 1).
    { replace (len tx ty tz) with (len tz ty tx)
        by (unfold len; f_equal; f_equal; ring).
      apply direction_below_one. }
    eapply Rle_trans; [apply push_bound; [exact Hdir | exact Hf]|].
    pose proof (noise_bound (sin (time + INR i * 0.1)) a ltac:(lra) Hz). lra.
Qed.

Lemma explosion_displacement_bounded_witness :
  0 <= Math_pow 1 1.5 * EXPLOSION_SCALE <= 6 /\
  Math_pow 1 1.5 * EXPLOSION_SCALE = 6.
Proof.
  assert (Ha : 0 <= 1 <= 1) by lra.
  destruct (explosion_displacement_bounded (mkPoint3D 1 0 0) 0 0 1 0 Ha)
    as (Hrange & _ & Hone & _).
  split; [exact Hrange | exact (Hone eq_refl)].
Defined.

End ParticleTargetMore.

(* ================================================================== *)
(** ** Further properties of the audio controller *)
(* ================================================================== *)

Section AudioMore.
Import Js AudioController AudioEngine.

(** X15. For an openness in [0, 1] the filter cutoff aimed at lies between
    150 and 6000 Hz and the master gain between 0.3 and 0.6; with no hand
    they are 208.5 Hz and 0.33; and a larger intensity never lowers either
    target. *)
Theorem audio_targets_range
        (props : AudioControllerProps)
        (Hrange : 0 <= handOpenness props <= 1) :
  150 <= targetFreq (intensity props) <= 6000 /\
  0.3 <= targetVol (intensity props) <= 0.6 /\
  (handDetected props = false ->
     targetFreq (intensity props) = 208.5 /\ targetVol (intensity props) = 0.33) /\
  (forall i j : R, 0 <= i <= j ->
     targetFreq i <= targetFreq j /\ targetVol i <= targetVol j).
Proof.
  assert (Hi : 0 <= intensity props <= 1)
    by (unfold intensity; destruct (handDetected props); lra).
  rewrite targetFreq_eq, targetVol_eq.
  split; [nra|]. split; [lra|]. split.
  - intros Hd. unfold intensity. rewrite Hd. lra.
  - intros i j Hij. rewrite !targetFreq_eq, !targetVol_eq. split; nra.
Qed.

Lemma audio_targets_range_witness :
  150 <= targetFreq (intensity (mkAudioControllerProps true 0.5 true)) <= 6000 /\
  0.3 <= targetVol (intensity (mkAudioControllerProps true 0.5 true)) <= 0.6.
Proof.
  assert (H : 0 <= handOpenness (mkAudioControllerProps true 0.5 true) <= 1)
    by (simpl; lra).
  destruct (audio_targets_range (mkAudioControllerProps true 0.5 true) H)
    as (Hf & Hv & _).
  split; assumption.
Defined.

Lemma initAudio_oscillators (ctx : AudioContext) (e : Engine) (s : RandomSource) :
  oscillatorsRef (fst (fst (initAudio (Some ctx) e s)))
  = fst (forEachVoice frequencies 0 [] s).
Proof.
  unfold initAudio, bind.
  destruct (forEachVoice frequencies 0 [] s) as [oscs s']. reflexivity.
Qed.

Lemma forEachVoice_chord (s : RandomSource) :
  fst (forEachVoice frequencies 0 [] s)
  = [ mkOscillator triangle 65.41 ((draws s (cursor s) - 0.5) * 10)
                   (1.0 / (INR 0 + 1.5)) true;
      mkOscillator sine 130.81 ((draws s (1 + cursor s) - 0.5) * 10)
                   (1.0 / (INR 1 + 1.5)) true;
      mkOscillator sine 155.56 ((draws s (2 + cursor s) - 0.5) * 10)
                   (1.0 / (INR 2 + 1.5)) true;
      mkOscillator sine 196.00 ((draws s (3 + cursor s) - 0.5) * 10)
                   (1.0 / (INR 3 + 1.5)) true;
      mkOscillator sine 293.66 ((draws s (4 + cursor s) - 0.5) * 10)
                   (1.0 / (INR 4 + 1.5)) true;
      mkOscillator sine 587.33 ((draws s (5 + cursor s) - 0.5) * 10)
                   (1.0 / (INR 5 + 1.5)) true ].
Proof. reflexivity. Qed.

(** X16. A successful initAudio leaves one running oscillator per frequency
    of the chord, in order, each detuned by less than 5 cents, mixed at
    levels that fall from 2/3 as the notes rise; the engine is marked
    initialised, and the master gain starts silent, fading in to 0.3. *)
Theorem initAudio_voices
        (ctx : AudioContext) (e : Engine) (s : RandomSource)
        (Hs : unit_draws s) :
  map AudioEngine.frequency (oscillatorsRef (fst (fst (initAudio (Some ctx) e s))))
  = frequencies /\
  Forall (fun osc => running osc = true /\ -5 <= detune osc < 5 /\
                     0 < level osc <= 2 / 3)
         (oscillatorsRef (fst (fst (initAudio (Some ctx) e s)))) /\
  ForallOrdPairs (fun low high => AudioEngine.frequency low < AudioEngine.frequency high /\
                                  level low > level high)
                 (oscillatorsRef (fst (fst (initAudio (Some ctx) e s)))) /\
  isInitializedRef (fst (fst (initAudio (Some ctx) e s))) = true /\
  audioCtxRef (refs (fst (fst (initAudio (Some ctx) e s)))) = Some ctx /\
  masterGainRef (refs (fst (fst (initAudio (Some ctx) e s))))
  = Some {| gain := {| value := 0;
                       automation := [(0.3, currentTime ctx, 2)] |} |} /\
  snd (fst (initAudio (Some ctx) e s)) = [].
Proof.
  rewrite initAudio_oscillators, forEachVoice_chord.
  assert (Hdet : forall k, -5 <= (draws s k - 0.5) * 10 < 5)
    by (intros k; pose proof (Hs k); lra).
  split; [reflexivity|]. split; [|split].
  - repeat (apply Forall_cons;
            [cbn [running detune level]; simpl INR;
             split; [reflexivity | split; [apply Hdet | lra]]|]).
    apply Forall_nil.
  - repeat (apply FOP_cons;
            [repeat (apply Forall_cons;
                     [cbn [AudioEngine.frequency level]; simpl INR; lra|]);
             apply Forall_nil|]).
    apply FOP_nil.
  - unfold initAudio, bind.
    destruct (forEachVoice frequencies 0 [] s) as [oscs s'].
    repeat split; reflexivity.
Qed.

Lemma initAudio_voices_witness :
  List.length (oscillatorsRef
                 (fst (fst (initAudio (Some some_context) unmounted half_draws))))
  = 6%nat.
Proof.
  destruct (initAudio_voices some_context unmounted half_draws half_draws_unit)
    as (Hf & _).
  rewrite <- (length_map AudioEngine.frequency), Hf. reflexivity.
Defined.

End AudioMore.

Section AudioLifecycle.
Import Js AudioController AudioEngine.

Lemma initAudio_refs (ctx : AudioContext) (e : Engine) (s : RandomSource) :
  fst (fst (initAudio (Some ctx) e s))
  = {| refs := {| audioCtxRef := Some ctx;
                  masterGainRef :=
                    Some {| gain := {| value := 0;
                                       automation := [(0.3, currentTime ctx, 2)] |} |};
                  filterNodeRef :=
                    Some {| AudioController.frequency :=
                              {| value := 200; automation := [] |} |} |};
       oscillatorsRef := fst (forEachVoice frequencies 0 [] s);
       isInitializedRef := true |}.
Proof.
  unfold initAudio, bind.
  destruct (forEachVoice frequencies 0 [] s) as [oscs s']. reflexivity.
Qed.

(** X17. Building the drone and then releasing it: stopAudio fades the
    master gain to 0 with time constant 0.5 and sets one timer of 500 ms on
    the context; when it fires, every oscillator that initAudio started is
    stopped, that context is closed, and the engine is back to not
    initialised with no context and no oscillators, so that the modulation
    of the sound does nothing from then on.  On an engine without a context
    stopAudio does nothing and sets no timer. *)
Theorem audio_release_round_trip
        (ctx : AudioContext) (e0 : Engine) (s : RandomSource)
        (props : AudioControllerProps) :
  let started := fst (fst (initAudio (Some ctx) e0 s)) in
  let fading := fst (stopAudio started) in
  snd (stopAudio started) = Some {| closes := ctx; delay := 500 |} /\
  masterGainRef (refs fading)
  = Some {| gain := {| value := 0;
                       automation := [(0.3, currentTime ctx, 2);
                                      (0, currentTime ctx, 0.5)] |} |} /\
  oscillatorsRef fading = oscillatorsRef started /\
  (let released := timerFires {| closes := ctx; delay := 500 |} fading in
   audioCtxRef (refs (fst released)) = None /\
   isInitializedRef (fst released) = false /\
   oscillatorsRef (fst released) = [] /\
   closed (snd released) = ctx /\
   map AudioEngine.frequency (stopped (snd released)) = frequencies /\
   Forall (fun osc => running osc = false) (stopped (snd released)) /\
   List.length (stopped (snd released)) = List.length (oscillatorsRef started) /\
   modulate props (refs (fst released)) = refs (fst released)) /\
  (forall e : Engine,
     audioCtxRef (refs e) = None -> stopAudio e = (e, None)).
Proof.
  cbv zeta. rewrite initAudio_refs.
  unfold stopAudio, timerFires, setTargetAtTime.
  cbn [refs audioCtxRef masterGainRef filterNodeRef gain value automation
       oscillatorsRef isInitializedRef fst snd app stopped closed closes].
  rewrite forEachVoice_chord.
  split; [reflexivity|]. split; [reflexivity|]. split; [reflexivity|].
  split.
  - repeat split; try reflexivity.
    repeat (apply Forall_cons; [reflexivity|]). apply Forall_nil.
  - intros e He. rewrite He. reflexivity.
Qed.

Lemma lifecycle_initialised (enabled : bool) (newContext : option AudioContext)
      (e : Engine) (s : RandomSource) :
  isInitializedRef e = true -> enabled = true ->
  lifecycle enabled newContext e s = (e, [], None, s).
Proof.
  intros Hi ->. unfold lifecycle. rewrite Hi. reflexivity.
Qed.

(** X18. The effect builds the drone once: run with enabled on an engine
    that is not initialised and a context that can be made, it leaves the
    engine initialised; run again with enabled, whatever context is on
    offer, it changes nothing, draws no random number and sets no timer.
    Run with enabled off on an engine that is not initialised it does
    nothing either. *)
Theorem lifecycle_builds_once
        (ctx : AudioContext) (e : Engine) (s s' : RandomSource)
        (again : option AudioContext)
        (Hfresh : isInitializedRef e = false) :
  let first := lifecycle true (Some ctx) e s in
  isInitializedRef (fst (fst (fst first))) = true /\
  List.length (oscillatorsRef (fst (fst (fst first)))) = 6%nat /\
  lifecycle true again (fst (fst (fst first))) s'
  = (fst (fst (fst first)), [], None, s') /\
  lifecycle false again e s' = (e, [], None, s').
Proof.
  cbv zeta.
  assert (Hfirst : fst (fst (fst (lifecycle true (Some ctx) e s)))
                   = fst (fst (initAudio (Some ctx) e s))).
  { unfold lifecycle. rewrite Hfresh. cbn [andb negb]. unfold bind.
    destruct (initAudio (Some ctx) e s) as [[e1 log] s1]. reflexivity. }
  rewrite Hfirst, initAudio_refs. cbn [isInitializedRef oscillatorsRef].
  split; [reflexivity|]. split; [rewrite forEachVoice_chord; reflexivity|].
  split.
  - apply lifecycle_initialised; reflexivity.
  - unfold lifecycle. rewrite Hfresh. reflexivity.
Qed.

Lemma lifecycle_builds_once_witness :
  isInitializedRef
    (fst (fst (fst (lifecycle true (Some some_context) unmounted half_draws))))
  = true.
Proof.
  exact (proj1 (lifecycle_builds_once some_context unmounted half_draws half_draws
                                      None eq_refl)).
Defined.

End AudioLifecycle.

(* ================================================================== *)
(** ** Further properties of the remote shape service and its caller *)
(* ================================================================== *)

Section ShapeServiceMore.
Import Js geminiService.

(** X19. Without a credential no revision calls the collaborator: the whole
    run, console included, is the same whatever the collaborator would have
    answered. *)
Theorem no_call_without_credential
        (process : Process) (remote remote' : Request -> Response)
        (description : string) (count : option Z)
        (Habsent : credential_absent process) :
  Rev1.generateShapePoints process remote description count
  = Rev1.generateShapePoints process remote' description count /\
  Rev2.generateShapePoints process remote description count
  = Rev2.generateShapePoints process remote' description count /\
  Rev3.generateShapePoints process remote description count
  = Rev3.generateShapePoints process remote' description count.
Proof.
  split; [|split].
  - unfold Rev1.generateShapePoints, Rev1.getAI.
    destruct process as [|API_KEY]; simpl in *; [reflexivity|].
    rewrite Habsent. reflexivity.
  - rewrite !Rev2_absent by exact Habsent. reflexivity.
  - unfold Rev3.generateShapePoints.
    destruct process as [|API_KEY]; simpl in *; [reflexivity|].
    rewrite Habsent. reflexivity.
Qed.

Lemma no_call_without_credential_witness :
  Rev2.generateShapePoints (Env None) remote_down "cat" None
  = Rev2.generateShapePoints (Env None) remote_no_points "cat" None.
Proof.
  assert (H : credential_absent (Env None)) by reflexivity.
  exact (proj1 (proj2 (no_call_without_credential
                         (Env None) remote_down remote_no_points "cat" None H))).
Defined.

(** X20. Revisions 1 and 2 write to the console exactly when the call
    fails, and then once: a returned value leaves the console empty, a
    thrown error is logged with that error, except that revision 2 logs the
    missing credential by its message alone. *)
Theorem failures_are_logged_once
        (process : Process) (remote : Request -> Response)
        (description : string) (count : option Z) :
  match settled (Rev1.generateShapePoints process remote description count) with
  | Ok _ => console (Rev1.generateShapePoints process remote description count) = []
  | Throw e =>
      console (Rev1.generateShapePoints process remote description count)
      = [console_error "Gemini Shape Generation Error:" (Some e)]
  end /\
  match settled (Rev2.generateShapePoints process remote description count) with
  | Ok _ => console (Rev2.generateShapePoints process remote description count) = []
  | Throw e =>
      console (Rev2.generateShapePoints process remote description count)
      = [console_error "Gemini Error:" (Some e)] \/
      (credential_absent process /\ e = Error "API_KEY_MISSING" /\
       console (Rev2.generateShapePoints process remote description count)
       = [console_error
            "Gemini API Key is missing. Please set it in your environment variables."
            None])
  end.
Proof.
  split.
  - unfold Rev1.generateShapePoints.
    destruct (Rev1.getAI process) as [key|e]; [|reflexivity].
    destruct (readPoints _ _); reflexivity.
  - unfold Rev2.generateShapePoints, Rev2.getApiKey.
    destruct process as [|[key|]]; simpl.
    + right. repeat split; reflexivity.
    + destruct (key =? "")%string eqn:E.
      * right. split; [|split; reflexivity].
        unfold credential_absent, truthy_key.
        first [reflexivity | rewrite E; reflexivity].
      * destruct (readPoints _ _); [reflexivity | left; reflexivity].
    + right. repeat split; reflexivity.
Qed.

(** X21. With a credential, a response whose JSON is an object with a truthy
    points member is returned as that member, whatever it is: an array is
    returned as it is, of any length, the requested count notwithstanding,
    and so is a value that is no array at all. *)
Theorem points_returned_unchecked
        (key : string) (remote : Request -> Response)
        (description : string) (count : option Z)
        (members : list (string * Json)) (value : Json)
        (Hkey : key <> ""%string)
        (Hanswer : forall request : Request,
            apiKey request = key ->
            remote request = Resolves (Parses (JObject members)))
        (Hpoints : member "points" members = Some value)
        (Htruthy : truthy value = true) :
  Rev1.generateShapePoints (Env (Some key)) remote description count
  = {| console := []; settled := Ok value |} /\
  Rev2.generateShapePoints (Env (Some key)) remote description count
  = {| console := []; settled := Ok value |} /\
  Rev3.generateShapePoints (Env (Some key)) remote description count
  = {| console := []; settled := Ok value |}.
Proof.
  assert (Hread : forall msg request, apiKey request = key ->
             readPoints msg (remote request) = Ok value).
  { intros msg request Hreq. rewrite (Hanswer request Hreq). simpl.
    rewrite Hpoints. simpl. rewrite Htruthy. reflexivity. }
  unfold Rev1.generateShapePoints, Rev1.getAI, Rev2.generateShapePoints,
    Rev2.getApiKey, Rev3.generateShapePoints; simpl.
  destruct (String.eqb_spec key "") as [E|_]; [contradiction|].
  rewrite !Hread by reflexivity. repeat split; reflexivity.
Qed.

Lemma points_returned_unchecked_witness :
  settled (Rev2.generateShapePoints
             (Env (Some "key"%string))
             (fun _ => Resolves (Parses (JObject [("points"%string, JString "none")])))
             "cat" (Some 2500%Z))
  = Ok (JString "none").
Proof.
  assert (Hkey : "key"%string <> ""%string) by discriminate.
  destruct (points_returned_unchecked
              "key" (fun _ => Resolves (Parses (JObject [("points"%string, JString "none")])))
              "cat" (Some 2500%Z) [("points"%string, JString "none")] (JString "none")
              Hkey (fun _ _ => eq_refl) eq_refl eq_refl) as (_ & H2 & _).
  rewrite H2. reflexivity.
Defined.

End ShapeServiceMore.

Section AppHandlersProps.
Import Js types geometry geminiService AppHandlers.

(** X22. Choosing Sphere, Cube or Bottle makes it the current shape and
    replaces the target points, whatever they were, by the 3500 points of
    its generator; choosing the custom shape only changes the current
    shape: the target points stay and no random number is drawn.  The
    prompt and the generating flag are never touched. *)
Theorem handleShapeChange_outcomes (st : AppState) (s : RandomSource) :
  (forall shape : ShapeType,
     currentShape (fst (handleShapeChange shape st s)) = shape /\
     customPrompt (fst (handleShapeChange shape st s)) = customPrompt st /\
     isGenerating (fst (handleShapeChange shape st s)) = isGenerating st) /\
  (targetPoints (fst (handleShapeChange SPHERE st s))
   = Local (fst (generateSphere 3500 s)) /\
   Z.of_nat (List.length (fst (generateSphere 3500 s))) = 3500%Z) /\
  (targetPoints (fst (handleShapeChange CUBE st s))
   = Local (fst (generateCube 3500 s)) /\
   Z.of_nat (List.length (fst (generateCube 3500 s))) = 3500%Z) /\
  (targetPoints (fst (handleShapeChange BOTTLE st s))
   = Local (fst (generateBottle 3500 s)) /\
   Z.of_nat (List.length (fst (generateBottle 3500 s))) = 3500%Z) /\
  targetPoints (fst (handleShapeChange GEMINI_GENERATED st s)) = targetPoints st /\
  snd (handleShapeChange GEMINI_GENERATED st s) = s.
Proof.
  assert (Hpos : forall (gen : Rand (list Point3D)),
             List.length (fst (gen s)) = iterations 3500 ->
             (0 <? List.length (fst (gen s)))%nat = true /\
             Z.of_nat (List.length (fst (gen s))) = 3500%Z).
  { intros gen Hlen. rewrite Hlen. unfold iterations. split.
    - apply Nat.ltb_lt. lia.
    - lia. }
  destruct (Hpos _ (generateSphere_length 3500 s)) as [Hs1 Hs2].
  destruct (Hpos _ (generateCube_length 3500 s)) as [Hc1 Hc2].
  destruct (Hpos _ (generateBottle_length 3500 s)) as [Hb1 Hb2].
  unfold handleShapeChange, bind.
  split; [|split; [|split; [|split; [|split]]]].
  - intros [| | |].
    + destruct (generateSphere 3500 s) as [pts s']; cbn [fst] in *.
      rewrite Hs1. repeat split; reflexivity.
    + destruct (generateCube 3500 s) as [pts s']; cbn [fst] in *.
      rewrite Hc1. repeat split; reflexivity.
    + destruct (generateBottle 3500 s) as [pts s']; cbn [fst] in *.
      rewrite Hb1. repeat split; reflexivity.
    + repeat split; reflexivity.
  - split; [|exact Hs2].
    destruct (generateSphere 3500 s) as [pts s']; cbn [fst] in *.
    rewrite Hs1. reflexivity.
  - split; [|exact Hc2].
    destruct (generateCube 3500 s) as [pts s']; cbn [fst] in *.
    rewrite Hc1. reflexivity.
  - split; [|exact Hb2].
    destruct (generateBottle 3500 s) as [pts s']; cbn [fst] in *.
    rewrite Hb1. reflexivity.
  - reflexivity.
  - reflexivity.
Qed.

(** X23. handleGeminiGenerate returns at once, touching nothing, when the
    trimmed prompt is empty or there is no key.  Otherwise it ends with the
    generating flag off and the custom shape current; a resolved call
    replaces the target points by what it resolved with, unchecked; a
    failed call keeps the target points of the shape shown before, logs the
    error and alerts that the generation failed.  The alert about the
    missing key is never shown. *)
Theorem handleGeminiGenerate_outcomes
        (trim : string -> string) (API_KEY : option string)
        (service : string -> option Z -> Run) (st : AppState) :
  (trim (customPrompt st) = ""%string \/ hasApiKey API_KEY = false ->
     handleGeminiGenerate trim API_KEY service st
     = {| state := st; logged := []; alerts := [] |}) /\
  (trim (customPrompt st) <> ""%string -> hasApiKey API_KEY = true ->
     isGenerating (state (handleGeminiGenerate trim API_KEY service st)) = false /\
     currentShape (state (handleGeminiGenerate trim API_KEY service st))
     = GEMINI_GENERATED /\
     (forall value : Json,
        settled (service (customPrompt st) (Some 2500%Z)) = Ok value ->
        targetPoints (state (handleGeminiGenerate trim API_KEY service st))
        = Remote value /\
        logged (handleGeminiGenerate trim API_KEY service st) = [] /\
        alerts (handleGeminiGenerate trim API_KEY service st) = []) /\
     (forall err : Thrown,
        settled (service (customPrompt st) (Some 2500%Z)) = Throw err ->
        targetPoints (state (handleGeminiGenerate trim API_KEY service st))
        = targetPoints st /\
        logged (handleGeminiGenerate trim API_KEY service st) = [err] /\
        alerts (handleGeminiGenerate trim API_KEY service st)
        = ["Failed to generate shape."%string])) /\
  ~ In "API Key is missing in Netlify settings."%string
       (alerts (handleGeminiGenerate trim API_KEY service st)).
Proof.
  unfold handleGeminiGenerate.
  split; [|split].
  - intros [Hblank|Hkey].
    + rewrite Hblank. reflexivity.
    + rewrite Hkey. rewrite orb_true_r. reflexivity.
  - intros Hprompt Hkey. rewrite Hkey.
    destruct (String.eqb_spec (trim (customPrompt st)) "") as [E|_];
      [contradiction|].
    cbn [orb negb].
    destruct (settled (service (customPrompt st) (Some 2500%Z))) as [v|e];
      cbn [state isGenerating currentShape targetPoints logged alerts].
    + split; [reflexivity|]. split; [reflexivity|]. split.
      * intros value H; inversion H; subst. repeat split; reflexivity.
      * intros err H; discriminate.
    + split; [reflexivity|]. split; [reflexivity|]. split.
      * intros value H; discriminate.
      * intros err H; inversion H; subst.
        split; [reflexivity|]. split; [reflexivity|].
        destruct err; reflexivity.
  - destruct ((trim (customPrompt st) =? "")%string || negb (hasApiKey API_KEY));
      [intros []|].
    destruct (settled (service (customPrompt st) (Some 2500%Z))) as [v|e];
      cbn [alerts]; [intros []|].
    destruct e; cbn [strictly_equals_string]; intros [H|[]]; discriminate.
Qed.

(** X24. With revision 2 of the service reading the same environment, the
    handler never asks the service without a key, and when it does ask, the
    outcome is that of the remote call: the error of the missing credential
    is logged only if the collaborator itself rejects with it. *)
Theorem missing_key_never_reaches_service
        (trim : string -> string) (API_KEY : option string)
        (remote : Request -> Response) (st : AppState) :
  (credential_absent (Env API_KEY) ->
     handleGeminiGenerate trim API_KEY
       (Rev2.generateShapePoints (Env API_KEY) remote) st
     = {| state := st; logged := []; alerts := [] |}) /\
  (In (Error "API_KEY_MISSING")
      (logged (handleGeminiGenerate trim API_KEY
                 (Rev2.generateShapePoints (Env API_KEY) remote) st)) ->
   exists request : Request,
     description request = customPrompt st /\ count request = 2500%Z /\
     remote request = Rejects (Error "API_KEY_MISSING")).
Proof.
  unfold handleGeminiGenerate, hasApiKey, credential_absent.
  split.
  - intros Habsent. rewrite Habsent. rewrite orb_true_r. reflexivity.
  - destruct (truthy_key API_KEY) as [key|] eqn:Ekey;
      [|rewrite orb_true_r; intros []].
    destruct ((trim (customPrompt st) =? "")%string); [intros []|].
    cbn [orb negb].
    assert (Hk : API_KEY = Some key /\ key <> ""%string).
    { destruct API_KEY as [k|]; [|discriminate]. simpl in Ekey.
      destruct (String.eqb_spec k "") as [E|E]; [discriminate|].
      inversion Ekey; subst. auto. }
    destruct Hk as [-> Hkey].
    rewrite (Rev2_present key remote (customPrompt st) (Some 2500%Z) Hkey).
    destruct (readPoints _ _) as [v|e] eqn:Eread; cbn [logged]; [intros []|].
    intros [->|[]].
    apply readPoints_Throw in Eread; [|discriminate].
    eexists. split; [|split; [|exact Eread]]; reflexivity.
Qed.

End AppHandlersProps.

Section FrameMore.
Import Js types ParticleScene.

(** X25. A frame on a mesh asks for a redraw, turns the system about the
    vertical axis by 0.001 + 0.005 times the active openness (0.001 with no
    hand, at most 0.006 for an openness up to 1), tilts it by
    0.1 sin(0.2 t), within 0.1 either way, keeps the size of the position
    buffer and draws three random numbers per particle; without a mesh it
    does nothing and draws nothing. *)
Theorem useFrame_mesh_update
        (props : ParticleSceneProps) (mesh : Mesh) (time : R) (s : RandomSource) :
  (exists mesh' : Mesh,
     fst (useFrame props (Some mesh) time s) = Ok (Some mesh') /\
     needsUpdate mesh' = true /\
     length (positions mesh') = length (positions mesh) /\
     rotation_y mesh' = rotation_y mesh + (0.001 + 0.005 * activeOpenness props) /\
     (handDetected props = false -> rotation_y mesh' = rotation_y mesh + 0.001) /\
     (0 <= activeOpenness props <= 1 ->
      rotation_y mesh + 0.001 <= rotation_y mesh' <= rotation_y mesh + 0.006) /\
     rotation_z mesh' = 0.1 * sin (0.2 * time) /\
     -0.1 <= rotation_z mesh' <= 0.1) /\
  snd (useFrame props (Some mesh) time s) = advance s (3 * PARTICLE_COUNT) /\
  useFrame props None time s = (Ok None, s).
Proof.
  unfold useFrame, bind.
  destruct (for_particles_spec props time PARTICLE_COUNT 0 (positions mesh) s)
    as (positions' & -> & Hlen & _).
  split; [|split; reflexivity].
  eexists. split; [reflexivity|].
  cbn [needsUpdate positions rotation_y rotation_z].
  pose proof (SIN_bound (time * 0.2)) as Hsin.
  split; [reflexivity|]. split; [exact Hlen|]. split; [lra|].
  split; [intros Hd; unfold activeOpenness; rewrite Hd; lra|].
  split; [intros Ha; lra|].
  split; [replace (0.2 * time) with (time * 0.2) by lra; lra | lra].
Qed.

End FrameMore.
